(** * TechNova air-quality health-risk service: inference and alerting pipeline

    A shallow embedding of [TechNova/app.py] (the Flask service) together with
    the column lists fixed by [TechNova/train_multilabel.py], and the
    properties of its schema resolver, trigger policy, explainer, advisory
    lookup and alert composition.

    Conventions of the embedding:
    - Python [float] is IEEE binary64: Rocq's primitive [float].
    - Python [str] is [string]; names and keys are ASCII, and [str.lower]
      acts on the letters A..Z.
    - a Python call that may raise returns a [pyres]; a [try]/[except
      Exception] is a [match] on it.  Only [Exception] subclasses are
      modelled (no [KeyboardInterrupt] or [SystemExit]).
    - a [dict] that is only read is a [gmap]; [feature_values], which is
      built by assignment and later enumerated, keeps insertion order.
    - [print] calls only write to the process log and are left out. *)

From Stdlib Require Import ZArith List String Ascii Floats Bool Lia.
From Stdlib Require Import DecimalString DecimalPos.
From Stdlib Require Import Sorting.Permutation Sorting.Sorted.
From stdpp Require Import gmap strings list fin_maps sorting.

Set Warnings "-register-all,-inexact-float".
Open Scope string_scope.

(** * The program *)

(** ** Python values, exceptions and builtins *)

Module Py.

Inductive exn_kind : Set :=
| TypeError | ValueError | IndexError | KeyError
| AttributeError | OverflowError | OtherError.

(** An exception object; [exn_msg] is what [str(e)] gives. *)
Record exn : Set := Exn { exn_kind_of : exn_kind; exn_msg : string }.

Inductive pyres (A : Type) : Type :=
| Ret (a : A)
| Raise (e : exn).
Arguments Ret {A} a.
Arguments Raise {A} e.

Definition bind {A B : Type} (m : pyres A) (k : A -> pyres B) : pyres B :=
  match m with
  | Ret a => k a
  | Raise e => Raise e
  end.

(** [try: m  except Exception: h] *)
Definition try_except {A : Type} (m : pyres A) (h : exn -> A) : A :=
  match m with
  | Ret a => a
  | Raise e => h e
  end.

(** The values a decoded JSON document or a Firestore document holds.
    [PyObject] is a value of any other type, as a Firestore document can
    hold ([bytes], a timestamp, a [GeoPoint], a [DocumentReference]): the
    name of its type, what [float()] makes of it ([None] for [TypeError]),
    and whether Flask's JSON provider can encode it. *)
Inductive PyVal : Type :=
| PyNone
| PyBool (b : bool)
| PyInt (z : Z)
| PyFloat (f : float)
| PyStr (s : string)
| PyList (items : list PyVal)
| PyDict (d : gmap string PyVal)
| PyObject (type_name : string) (float_of : option float) (json : bool).

Definition is_none (v : PyVal) : bool :=
  match v with
  | PyNone => true
  | _ => false
  end.

(** [float(n)] for an [int]: the nearest binary64 value, ties to even;
    [OverflowError] when that is out of range. *)
Definition float_of_int (z : Z) : pyres float :=
  let f := SF2Prim (binary_normalize prec emax z 0 false) in
  if PrimFloat.is_infinity f
  then Raise (Exn OverflowError "int too large to convert to float")
  else Ret f.

(** The services of the interpreter and of NumPy that the service calls and
    the embedding does not spell out: the parser behind [float(s)] for a
    [str], [str(x)] of a [float] (used by [f"{k}: {v}"]), and the sorting
    kernel behind [np.argsort], which decides the order of equal values (see
    [Np.argsort]). *)
Record Runtime : Type := {
  float_of_str : string -> option float;
  str_of_float : float -> string;
  argsort_kernel : list float -> list nat
}.

(** The builtin [float(v)]. *)
Definition py_float (rt : Runtime) (v : PyVal) : pyres float :=
  match v with
  | PyNone => Raise (Exn TypeError "float() argument must be a string or a real number, not 'NoneType'")
  | PyBool b => Ret (if b then 1%float else 0%float)
  | PyInt z => float_of_int z
  | PyFloat f => Ret f
  | PyStr s =>
      match float_of_str rt s with
      | Some f => Ret f
      | None => Raise (Exn ValueError ("could not convert string to float: '" ++ s ++ "'"))
      end
  | PyList _ => Raise (Exn TypeError "float() argument must be a string or a real number, not 'list'")
  | PyDict _ => Raise (Exn TypeError "float() argument must be a string or a real number, not 'dict'")
  | PyObject t (Some f) _ => Ret f
  | PyObject t None _ =>
      Raise (Exn TypeError ("float() argument must be a string or a real number, not '" ++ t ++ "'"))
  end.

Definition ascii_lower (c : ascii) : ascii :=
  let n := nat_of_ascii c in
  if (65 <=? n)%nat && (n <=? 90)%nat then ascii_of_nat (n + 32) else c.

(** [s.lower()] *)
Fixpoint lower (s : string) : string :=
  match s with
  | EmptyString => EmptyString
  | String c s' => String (ascii_lower c) (lower s')
  end.

(** [sub in s] for two strings. *)
Fixpoint str_in (sub s : string) : bool :=
  String.prefix sub s ||
  match s with
  | EmptyString => false
  | String _ s' => str_in sub s'
  end.

(** [sep.join(parts)] *)
Fixpoint join (sep : string) (parts : list string) : string :=
  match parts with
  | [] => ""
  | [p] => p
  | p :: rest => p ++ sep ++ join sep rest
  end.

(** An insertion-ordered [dict] with [str] keys: [d[k] = v] replaces the
    value of a key already present, in place, and appends a new key. *)
Fixpoint od_set {V : Type} (k : string) (v : V) (d : list (string * V)) : list (string * V) :=
  match d with
  | [] => [(k, v)]
  | (k', v') :: d' =>
      if String.eqb k k' then (k', v) :: d' else (k', v') :: od_set k v d'
  end.

Fixpoint od_get {V : Type} (k : string) (d : list (string * V)) : option V :=
  match d with
  | [] => None
  | (k', v') :: d' => if String.eqb k k' then Some v' else od_get k d'
  end.

(** [d[k]], raising [KeyError] on a missing key. *)
Definition od_item {V : Type} (k : string) (d : list (string * V)) : pyres V :=
  match od_get k d with
  | Some v => Ret v
  | None => Raise (Exn KeyError k)
  end.

Definition od_keys {V : Type} (d : list (string * V)) : list string := map fst d.

(** [[f(c) for c in cs]] where [f] may raise. *)
Fixpoint list_comp {A B : Type} (f : A -> pyres B) (cs : list A) : pyres (list B) :=
  match cs with
  | [] => Ret []
  | c :: cs' => bind (f c) (fun b => bind (list_comp f cs') (fun bs => Ret (b :: bs)))
  end.

(** [l[i]] for a list and an integer [i >= 0]. *)
Definition list_item {A : Type} (l : list A) (i : nat) : pyres A :=
  match nth_error l i with
  | Some a => Ret a
  | None => Raise (Exn IndexError "list index out of range")
  end.

(** [l[i]] for a list and a one-dimensional integer array [i]: a list takes
    no array as index ([operator.index] accepts an integer array of dimension
    0 only). *)
Definition list_item_by_array {A : Type} (l : list A) (i : list nat) : pyres A :=
  Raise (Exn TypeError "only integer scalar arrays can be converted to a scalar index").

(** [str(n)] for an [int] [n >= 0]. *)
Definition str_of_nat (n : nat) : string := NilZero.string_of_uint (Nat.to_uint n).



End Py.
Import Py.

(** ** The NumPy operations the explainer uses *)

Module Np.

(** The order [numpy.sort] and [numpy.argsort] put floats in: ascending,
    with NaN after every number. *)
Definition lt (a b : float) : bool :=
  (a <? b)%float || (PrimFloat.is_nan b && negb (PrimFloat.is_nan a)).

Definition le (a b : float) : bool := negb (lt b a).

(** Insertion of an (index, value) pair into a list sorted by value; an
    equal value goes after the new pair, so earlier indices stay first. *)
Fixpoint insert (x : nat * float) (l : list (nat * float)) : list (nat * float) :=
  match l with
  | [] => [x]
  | y :: l' => if le (snd x) (snd y) then x :: y :: l' else y :: insert x l'
  end.

Fixpoint sort_pairs (l : list (nat * float)) : list (nat * float) :=
  match l with
  | [] => []
  | x :: l' => insert x (sort_pairs l')
  end.

Definition enumerate {A : Type} (l : list A) : list (nat * A) :=
  combine (seq 0 (length l)) l.

(** The indices of [v] in ascending order of value, equal values in the
    order of their indices (a stable sort). *)
Definition stable_argsort (v : list float) : list nat :=
  map fst (sort_pairs (enumerate v)).

(** The values of [v] at the indices [idx] never descend. *)
Fixpoint ascending (v : list float) (idx : list nat) : bool :=
  match idx with
  | i :: ((j :: _) as idx') => le (nth i v nan) (nth j v nan) && ascending v idx'
  | _ => true
  end.

(** [idx] holds every index of [v] once, in ascending order of value. *)
Definition is_argsort (v : list float) (idx : list nat) : bool :=
  (length idx =? length v)%nat
  && forallb (fun k => existsb (Nat.eqb k) idx) (seq 0 (length v))
  && ascending v idx.

(** [np.argsort(v)] for a one-dimensional [v]: the indices of [v] in
    ascending order of value.  The default sort is not stable: among equal
    values the order is the choice of the sorting kernel, which varies with
    the NumPy version and the processor.  [kernel] is that choice; every
    kernel of NumPy returns the indices in ascending order of value, and an
    answer that is no such arrangement is replaced by the stable one. *)
Definition argsort (kernel : list float -> list nat) (v : list float) : list nat :=
  if is_argsort v (kernel v) then kernel v else stable_argsort v.

(** [a[i]] on the first axis of an array, [l] being the entries along that
    axis and [i >= 0]. *)
Definition item {A : Type} (l : list A) (i : nat) : pyres A :=
  match nth_error l i with
  | Some a => Ret a
  | None =>
      Raise (Exn IndexError
               ("index " ++ str_of_nat i ++ " is out of bounds for axis 0 with size "
                ++ str_of_nat (length l)))
  end.

(** A two-dimensional float array of shape [(length rows, ncols)]. *)
Record array2 : Type := Array2 { ncols : nat; rows : list (list float) }.

(** A three-dimensional float array of shape [(length planes, dim1, dim2)]. *)
Record array3 : Type := Array3 { dim1 : nat; dim2 : nat; planes : list (list (list float)) }.

(** [np.abs(a)] *)
Definition abs (a : array2) : array2 :=
  {| ncols := ncols a; rows := map (map PrimFloat.abs) (rows a) |}.

Definition column (a : array2) (j : nat) : list float :=
  map (fun r => nth j r 0%float) (rows a).

(** [np.add.reduce] over one column: the first entry, then the others added
    in order; zero for no entry. *)
Definition sum (col : list float) : float :=
  match col with
  | [] => 0%float
  | c :: cs => fold_left PrimFloat.add cs c
  end.

(** The row count as a float (exact below 2^53). *)
Definition count (a : array2) : float :=
  SF2Prim (binary_normalize prec emax (Z.of_nat (length (rows a))) 0 false).

(** [a.mean(axis=0)]: per column, the sum divided by the number of rows
    (NaN, with a warning and no exception, when there is no row). *)
Definition mean_axis0 (a : array2) : list float :=
  map (fun j => (sum (column a j) / count a)%float) (seq 0 (ncols a)).

(** [np.asarray] of a list of two-dimensional arrays of one shape, as
    [np.abs] converts its argument: the arrays are the planes of one
    three-dimensional array.  [a] is the first array of the list, [others]
    are the rows of the other arrays. *)
Definition stack (a : array2) (others : list (list (list float))) : array3 :=
  {| dim1 := length (rows a); dim2 := ncols a; planes := rows a :: others |}.

(** [np.abs(t)] *)
Definition abs3 (t : array3) : array3 :=
  {| dim1 := dim1 t; dim2 := dim2 t;
     planes := map (map (map PrimFloat.abs)) (planes t) |}.

(** The entries at position [(i, j)] of every plane. *)
Definition fibre (t : array3) (i j : nat) : list float :=
  map (fun p => nth j (nth i p []) 0%float) (planes t).

(** [t.mean(axis=0)]: the mean over the planes, an array of shape
    [(dim1, dim2)]. *)
Definition mean_axis0_3 (t : array3) : array2 :=
  {| ncols := dim2 t;
     rows := map (fun i =>
               map (fun j =>
                      (sum (fibre t i j)
                       / SF2Prim (binary_normalize prec emax
                                    (Z.of_nat (length (planes t))) 0 false))%float)
                 (seq 0 (dim2 t)))
             (seq 0 (dim1 t)) |}.

(** [np.argsort(a)] for a two-dimensional [a]: along the last axis, every
    row sorted on its own. *)
Definition argsort_rows (kernel : list float -> list nat) (a : array2) : list (list nat) :=
  map (argsort kernel) (rows a).

End Np.

(** Python slices of a list. *)
Definition slice_last (n : nat) {A : Type} (l : list A) : list A :=
  skipn (length l - n) l.

Definition slice_first (n : nat) {A : Type} (l : list A) : list A :=
  firstn n l.

(** ** The model bundle ([disease_model.pkl]) *)

(** What [model.predict_proba(x)] returns: for a [MultiOutputClassifier] a
    list with one [(n_samples, n_classes)] array per label; anything that is
    neither a list nor a tuple otherwise. *)
Inductive ProbaOut : Type :=
| ProbaSeq (per_label : list (list (list float)))
| ProbaOther.

(** What [explainer.shap_values(x)] returns:
    - one [(n_samples, n_features)] array, for an estimator with a single
      output (a regressor);
    - for a classifier, as the [RandomForestClassifier] estimators of the
      stored model are, the attributions of every class: a list with one
      [(n_samples, n_features)] array per class (shap before 0.45), here the
      array of the first class and the rows of the arrays of the other
      classes, or one array of shape [(n_samples, n_features, n_classes)]
      (shap 0.45 and later). *)
Inductive ShapValues : Type :=
| ShapMatrix (values : Np.array2)
| ShapPerClass (class0 : Np.array2) (classes : list (list (list float)))
| ShapRank3 (values : Np.array3).

(** The fitted model, seen through the three calls the service makes on the
    one-row input [x]:
    - [predict_proba x] is [model.predict_proba(x)];
    - [predict x] is [model.predict(x)[0]], the row of 0/1 outputs, a
      one-dimensional array;
    - [tree_shap k x] is
      [shap.TreeExplainer(model.estimators_[k]).shap_values(x)], or the
      exception one of these three steps raises. *)
Record Model : Type := {
  predict_proba : list float -> pyres ProbaOut;
  predict : list float -> pyres (list Z);
  tree_shap : nat -> list float -> pyres ShapValues
}.

Record Bundle : Type := {
  model : Model;
  FEATURE_COLS : list string;
  LABEL_COLS : list string
}.

(** The columns [train_multilabel.py] stores in the bundle. *)
Definition train_features : list string :=
  ["co2_ppm"; "co_ppm"; "pm2_5_ugm3"; "no2_ppb"; "temperature_c"; "humidity_pct"; "overall_aqi"].

Definition X_cols : list string :=
  train_features ++ ["pm2_5_roll_3"; "no2_roll_3"; "pm2_5_lag1"; "no2_lag1"].

Definition y_cols : list string :=
  ["asthma"; "copd"; "resp_inf"; "cardio"; "allergy"].

(** The lagged columns of [load_and_prepare] in [train_multilabel.py]:
    [df[c].shift(1).bfill()] on one column of the frame. *)
Module Train.

(** [s.shift(1)]: every value moves down one row, the first row gets NaN and
    the last value drops out. *)
Definition shift1 (s : list float) : list float :=
  match s with
  | [] => []
  | _ :: _ => nan :: removelast s
  end.

(** [s.bfill()]: a NaN takes the next value below it that is not NaN, and
    stays NaN when there is none. *)
Fixpoint bfill (s : list float) : list float :=
  match s with
  | [] => []
  | v :: rest =>
      let filled := bfill rest in
      (if PrimFloat.is_nan v then
         match filled with
         | [] => v
         | next :: _ => next
         end
       else v) :: filled
  end.

Definition lag1 (s : list float) : list float := bfill (shift1 s).

End Train.

(** ** Advice templates *)

(** One entry of [ADVICE_TEMPLATES]; the empty dict [{}] has neither key. *)
Record Template : Type := {
  title : option string;
  advice : option (list string)
}.

Definition no_template : Template := {| title := None; advice := None |}.

Definition template (t : string) (a : list string) : Template :=
  {| title := Some t; advice := Some a |}.

Definition ADVICE_TEMPLATES : gmap string Template :=
  list_to_map [
    ("asthma", template "Asthma exacerbation risk"
       ["Avoid outdoor strenuous exercise.";
        "Keep windows closed; increase indoor filtration if possible.";
        "Use prescribed inhaler as advised; consult physician if symptoms worsen."]);
    ("copd", template "COPD exacerbation risk"
       ["Avoid outdoor exposure; use face mask outdoors.";
        "Ensure medication adherence; seek medical advice for breathing difficulty."]);
    ("resp_inf", template "Respiratory infection risk"
       ["Reduce exposure to polluted air; maintain hydration and hygiene.";
        "If you have symptoms, consult a doctor."]);
    ("cardio", template "Cardiovascular risk"
       ["Avoid heavy exertion outdoors; those with heart disease should be cautious.";
        "Consult your cardiologist if you have chest pain or unusual breathlessness."]);
    ("allergy", template "Allergic reaction risk"
       ["Consider antihistamines if you have allergies; keep indoor air clean.";
        "Avoid outdoor activities during high pollutant episodes."])
  ].

(** [ADVICE_TEMPLATES.get(label, {})] *)
Definition template_of (label : string) : Template :=
  default no_template (ADVICE_TEMPLATES !! label).

(** [ADVICE_TEMPLATES.get(label, {}).get("advice", [])] *)
Definition advice_for (label : string) : list string :=
  default [] (advice (template_of label)).

(** ** Formatting *)

Definition nl : string := String (ascii_of_nat 10) "".

Definition decimal (n : Z) : string :=
  NilZero.string_of_uint (N.to_uint (Z.to_N n)).

(** The integer nearest to [num / den], ties to the even one ([0 < den]). *)
Definition round_half_even (num den : Z) : Z :=
  let q := (num / den)%Z in
  let r := (num mod den)%Z in
  match (2 * r ?= den)%Z with
  | Lt => q
  | Gt => (q + 1)%Z
  | Eq => if Z.even q then q else (q + 1)%Z
  end.

(** The number of hundredths [f"{x:.2f}"] prints for the finite magnitude
    [m * 2^e]: the exact binary value, correctly rounded. *)
Definition hundredths (m : positive) (e : Z) : Z :=
  if (0 <=? e)%Z then (Z.pos m * 2 ^ e * 100)%Z
  else round_half_even (Z.pos m * 100) (2 ^ (- e)).

Definition two_digits (n : Z) : string :=
  if (n <? 10)%Z then "0" ++ decimal n else decimal n.

Definition sign_str (s : bool) : string := if s then "-" else "".

(** [f"{x:.2f}"] for a float [x]. *)
Definition format_2f (x : float) : string :=
  match Prim2SF x with
  | S754_nan => "nan"
  | S754_infinity s => sign_str s ++ "inf"
  | S754_zero s => sign_str s ++ "0.00"
  | S754_finite s m e =>
      let h := hundredths m e in
      sign_str s ++ decimal (h / 100) ++ "." ++ two_digits (h mod 100)
  end.

(** ** The service *)

(** One entry of the [predictions] list. *)
Record Prediction : Type := {
  label : string;
  predicted : Z;
  probability : option float;
  reason_features : list string;
  p_advice : list string
}.

Record PredictionOutput : Type := {
  status : string;
  predictions : list Prediction
}.

(** A MIME text message handed to the SMTP server. *)
Record Email : Type := {
  mail_subject : string;
  mail_from : string;
  mail_to : string;
  mail_body : string
}.

(** The document written to the [DiseasePredictions] collection
    ([created_at] is filled in by the server). *)
Record Document : Type := {
  doc_features : list (string * float);
  doc_predictions : list Prediction
}.

(** The process environment and the two collaborators of the ingestion
    route: the [ALERT_*] variables read at start-up, the SMTP session of
    [send_alert_email], the identifier [document()] allocates and the
    outcome of [doc_ref.set]. *)
Record Services : Type := {
  EMAIL_SENDER : option string;
  EMAIL_PASSWORD : option string;
  ALERT_TO_EMAIL : option string;
  smtp_send : Email -> pyres unit;
  new_document_id : string;
  firestore_set : string -> Document -> pyres unit
}.

(** What a request did to the outside world, in order: the write of a
    document and whether it went through, the call of [send_alert_email],
    and the SMTP session with its outcome. *)
Inductive Event : Type :=
| Stored (id : string) (doc : Document)
| StoreFailed (id : string) (doc : Document)
| AlertCall (subject body : string)
| MailSent (msg : Email)
| MailFailed (msg : Email).

(** The JSON envelope and HTTP status a route answers with. *)
Inductive Response : Type :=
| OkEnvelope (document_id : string) (preds : list Prediction) (features : list (string * float))
| ErrorEnvelope (message : string).

Definition http_status (r : Response) : Z :=
  match r with
  | OkEnvelope _ _ _ => 200
  | ErrorEnvelope _ => 500
  end.

(** The envelope of [/api/v1/predict_disease]: the output of
    [run_prediction] with the features added (status 200), or the error
    envelope (status 500). *)
Inductive PredictResponse : Type :=
| PredictOk (preds : list Prediction) (features : list (string * float))
| PredictError (message : string).



(** Truthiness of an optional string ([None] and the empty string are false). *)
Definition truthy (o : option string) : bool :=
  match o with
  | Some s => negb (String.eqb s "")
  | None => false
  end.

(** [a or b] on optional strings. *)
Definition or_else (a b : option string) : option string :=
  if truthy a then a else b.

Section Service.

Variable rt : Runtime.
Variable bundle : Bundle.
Variable svc : Services.

(** [explain_and_generate_advice]: the body of the [try].  For one
    two-dimensional array the mean over the samples is a vector,
    [np.argsort] gives feature indices and [top_idx] holds the last two of
    them, reversed.  For the attributions of a classifier, [np.abs] gives a
    three-dimensional array and the mean over its first axis a matrix;
    [np.argsort] sorts each of its rows, [[-2:][::-1]] keeps its last two
    rows, and [i] runs over these rows, which are arrays. *)
Definition explain_attempt (single_input_array : list float) : pyres (list string) :=
  bind (tree_shap (model bundle) 0 single_input_array) (fun shap_values =>
  match shap_values with
  | ShapMatrix values =>
      let top_idx :=
        rev (slice_last 2 (Np.argsort (argsort_kernel rt) (Np.mean_axis0 (Np.abs values)))) in
      list_comp (list_item (FEATURE_COLS bundle)) top_idx
  | ShapPerClass class0 classes =>
      let values := Np.stack class0 classes in
      let top_idx :=
        rev (slice_last 2
               (Np.argsort_rows (argsort_kernel rt) (Np.mean_axis0_3 (Np.abs3 values)))) in
      list_comp (list_item_by_array (FEATURE_COLS bundle)) top_idx
  | ShapRank3 values =>
      let top_idx :=
        rev (slice_last 2
               (Np.argsort_rows (argsort_kernel rt) (Np.mean_axis0_3 (Np.abs3 values)))) in
      list_comp (list_item_by_array (FEATURE_COLS bundle)) top_idx
  end).

Definition explain_and_generate_advice (single_input_array : list float) : list string :=
  try_except (explain_attempt single_input_array)
    (fun _ => slice_first 2 (FEATURE_COLS bundle)).

(** The probability read for label [i] in [run_prediction]:
    [float(proba[i][0][1])] when [proba] is a list or tuple longer than [i],
    and [None] when it is not or the read raises. *)
Definition label_probability (proba : ProbaOut) (i : nat) : option float :=
  match proba with
  | ProbaSeq per_label =>
      if (i <? length per_label)%nat then
        try_except
          (bind (list_item per_label i) (fun a =>
           bind (Np.item a 0) (fun row =>
           bind (Np.item row 1) (fun v => Ret (Some v)))))
          (fun _ => None)
      else None
  | ProbaOther => None
  end.

(** The trigger test of [run_prediction]. *)
Definition triggered (pred : Z) (p : option float) : bool :=
  (pred =? 1)%Z ||
  match p with
  | Some v => (0.3 <? v)%float
  | None => false
  end.

(** The loop of [run_prediction] from position [i] on, [result] being the
    list built so far. *)
Fixpoint prediction_loop (x : list float) (proba : ProbaOut) (preds : list Z)
    (i : nat) (labels : list string) (result : list Prediction)
    : pyres (list Prediction) :=
  match labels with
  | [] => Ret result
  | lbl :: labels' =>
      let p := label_probability proba i in
      bind (Np.item preds i) (fun pred =>
      if triggered pred p then
        let top_features := explain_and_generate_advice x in
        let adv := advice_for lbl in
        prediction_loop x proba preds (S i) labels'
          (result ++ [{| label := lbl; predicted := pred; probability := p;
                         reason_features := top_features; p_advice := adv |}])
      else prediction_loop x proba preds (S i) labels' result)
  end.

Definition run_prediction (x : list float) : pyres PredictionOutput :=
  bind (predict_proba (model bundle) x) (fun proba =>
  bind (predict (model bundle) x) (fun preds =>
  bind (prediction_loop x proba preds 0 (LABEL_COLS bundle) []) (fun result =>
  Ret {| status := "ok"; predictions := result |}))).

(** The alias group of a lower-cased feature name in [build_feature_values]. *)
Definition alias_candidates (col_lower : string) : list string :=
  if str_in "temp" col_lower then ["temperature"; "temp"; "Temperature"]
  else if str_in "humid" col_lower then ["humidity"; "hum"; "Humidity"]
  else if str_in "co2" col_lower then ["co2_ppm"; "co2"; "CO2"]
  else if str_in "co" col_lower && negb (str_in "co2" col_lower)
       then ["co_ppm"; "co"; "CO_ppm"; "CO"]
  else if str_in "pm" col_lower then ["pm25"; "pm_25"; "PM2_5"]
  else if str_in "no2" col_lower then ["no2_ppm"; "no2"; "NO2"]
  else if str_in "aqi" col_lower then ["aqi"; "AQI"]
  else [].

Definition candidates (col : string) : list string :=
  let col_lower := lower col in
  [col; col_lower] ++ alias_candidates col_lower.

(** [for key in candidates: if key in payload: value = payload[key]; break],
    starting from [value = None]. *)
Fixpoint first_present (payload : gmap string PyVal) (keys : list string) : PyVal :=
  match keys with
  | [] => PyNone
  | key :: keys' =>
      match payload !! key with
      | Some v => v
      | None => first_present payload keys'
      end
  end.

(** The value [build_feature_values] stores for one column. *)
Definition feature_value (payload : gmap string PyVal) (col : string) : float :=
  let value := first_present payload (candidates col) in
  let value := if is_none value then default (PyFloat 0) (payload !! col) else value in
  try_except (py_float rt value) (fun _ => 0%float).

Definition build_feature_values (payload : gmap string PyVal) : list (string * float) :=
  fold_left (fun feature_values col => od_set col (feature_value payload col) feature_values)
    (FEATURE_COLS bundle) [].

(** [[feature_values[c] for c in FEATURE_COLS]], the one row of [x]. *)
Definition feature_row (feature_values : list (string * float)) : pyres (list float) :=
  list_comp (fun c => od_item c feature_values) (FEATURE_COLS bundle).

(** [send_alert_email(subject, body)]: the events it causes.  An exception
    of the SMTP session is caught inside. *)
Definition send_alert_email (subject body : string) (to_email : option string) : list Event :=
  let sender := EMAIL_SENDER svc in
  let password := EMAIL_PASSWORD svc in
  let recipient := or_else to_email (ALERT_TO_EMAIL svc) in
  if negb (truthy sender && truthy password && truthy recipient) then []
  else
    let msg := {| mail_subject := subject; mail_from := default "" sender;
                  mail_to := default "" recipient; mail_body := body |} in
    try_except (bind (smtp_send svc msg) (fun _ => Ret [MailSent msg]))
      (fun _ => [MailFailed msg]).

(** The line of the alert body for one prediction. *)
Definition alert_line (p : Prediction) : string :=
  let prob_str :=
    match probability p with
    | Some prob => format_2f prob
    | None => "N/A"
    end in
  "- " ++ label p ++ " (probability: " ++ prob_str ++ ")".

Definition feature_line (kv : string * float) : string :=
  fst kv ++ ": " ++ str_of_float rt (snd kv).

Definition alert_body (preds : list Prediction) (feature_values : list (string * float)) : string :=
  "The air-quality ML model detected potential health risks:" ++ nl ++ nl
  ++ join nl (map alert_line preds)
  ++ nl ++ nl ++ "Features:" ++ nl
  ++ join nl (map feature_line feature_values).

(** Step 4 of [ingest_from_device]: the alert, when there is a prediction. *)
Definition alert_step (preds : list Prediction) (feature_values : list (string * float)) : list Event :=
  match preds with
  | [] => []
  | _ :: _ =>
      let body := alert_body preds feature_values in
      AlertCall "Air Quality Health Risk Alert" body
        :: send_alert_email "Air Quality Health Risk Alert" body None
  end.

(** The route [/api/v1/ingest_from_device].  [body] is what
    [request.get_json(force=True) or {}] gives for a JSON object, or the
    exception it raises.  The whole handler is one [try]; its [except
    Exception] answers with the error envelope. *)
Definition ingest_from_device (body : pyres (gmap string PyVal)) : Response * list Event :=
  match body with
  | Raise e => (ErrorEnvelope (exn_msg e), [])
  | Ret payload =>
      let feature_values := build_feature_values payload in
      match bind (feature_row feature_values) run_prediction with
      | Raise e => (ErrorEnvelope (exn_msg e), [])
      | Ret prediction_output =>
          let preds := predictions prediction_output in
          let doc_data := {| doc_features := feature_values; doc_predictions := preds |} in
          let doc_id := new_document_id svc in
          match firestore_set svc doc_id doc_data with
          | Raise e => (ErrorEnvelope (exn_msg e), [StoreFailed doc_id doc_data])
          | Ret _ =>
              (OkEnvelope doc_id preds feature_values,
               Stored doc_id doc_data :: alert_step preds feature_values)
          end
      end
  end.

(** The route [/api/v1/predict_disease]; [body] as for
    [ingest_from_device]. *)
Definition predict_disease (body : pyres (gmap string PyVal)) : PredictResponse :=
  match body with
  | Raise e => PredictError (exn_msg e)
  | Ret payload =>
      let feature_values := build_feature_values payload in
      match bind (feature_row feature_values) run_prediction with
      | Raise e => PredictError (exn_msg e)
      | Ret output => PredictOk (predictions output) feature_values
      end
  end.



End Service.

(** * Definitions for the statements and proofs *)

(** ** The order of floats, for the proofs about [Np.argsort] *)

(** A key whose lexicographic order is the order of [Np.lt]: the class of the
    float (negative infinity, negative, zero, positive, positive infinity,
    NaN), then exponent and mantissa, mirrored for negative numbers. *)
Definition rank (f : spec_float) : Z * Z * Z :=
  match f with
  | S754_nan => (3, 0, 0)
  | S754_infinity s => (if s then -2 else 2, 0, 0)
  | S754_zero _ => (0, 0, 0)
  | S754_finite s m e => if s then (-1, - e, Z.neg m) else (1, e, Z.pos m)
  end%Z.

Definition lex_compare (a b : Z * Z * Z) : comparison :=
  match a, b with
  | (a1, a2, a3), (b1, b2, b3) =>
      match (a1 ?= b1)%Z with
      | Eq => match (a2 ?= b2)%Z with
              | Eq => (a3 ?= b3)%Z
              | c => c
              end
      | c => c
      end
  end.

Definition key (x : float) : Z * Z * Z := rank (Prim2SF x).

(** Two (index, value) pairs in the order of their values. *)
Definition le_pair (p q : nat * float) : Prop := Np.le (snd p) (snd q) = true.

(** ** Example bundles

    The schema of the direct-inference scenario, a model that flags the
    second label, with a probability for three labels, and one attribution
    row per input row. *)

(** An interpreter stub for requests that hold no text: it parses no string
    and prints floats as the empty string; its sorting kernel is stable. *)
Definition demo_runtime : Runtime :=
  {| float_of_str := fun _ => None; str_of_float := fun _ => "";
     argsort_kernel := Np.stable_argsort |}.

(** A stub that prints the three readings of the scenario as Python does,
    and whose sorting kernel puts equal values in descending index order. *)
Definition scenario_runtime : Runtime :=
  {| float_of_str := fun _ => None;
     str_of_float := fun v =>
       if (v =? 35)%float then "35.0"
       else if (v =? 1200)%float then "1200.0"
       else if (v =? 80)%float then "80.0"
       else "";
     argsort_kernel := fun v =>
       map fst (Np.sort_pairs (rev (Np.enumerate v))) |}.

Definition demo_features : list string := ["temperature_c"; "co2_ppm"; "pm2_5_ugm3"].

Definition demo_proba : ProbaOut :=
  ProbaSeq [ [[0.9; 0.1]]; [[0.2; 0.8]]; [[0.65; 0.35]]; [[1]] ]%float.

Definition demo_model : Model := {|
  predict_proba := fun _ => Ret demo_proba;
  predict := fun _ => Ret [0; 1; 0; 0; 0]%Z;
  tree_shap := fun k _ =>
    match k with
    | O => Ret (ShapMatrix {| Np.ncols := 3; Np.rows := [[0.1; -0.5; 0.3]%float] |})
    | S _ => Ret (ShapMatrix {| Np.ncols := 3; Np.rows := [[0.7; 0.2; 0.1]%float] |})
    end
|}.

Definition demo_bundle : Bundle :=
  {| model := demo_model; FEATURE_COLS := demo_features; LABEL_COLS := y_cols |}.

(** The same bundle with an estimator that [shap.TreeExplainer] refuses. *)
Definition no_shap_error : exn :=
  Exn OtherError "Model type not yet supported by TreeExplainer: <class 'sklearn.svm._classes.SVC'>".

Definition demo_model_no_shap : Model := {|
  predict_proba := predict_proba demo_model;
  predict := predict demo_model;
  tree_shap := fun _ _ => Raise no_shap_error
|}.

Definition demo_bundle_no_shap : Bundle :=
  {| model := demo_model_no_shap; FEATURE_COLS := demo_features; LABEL_COLS := y_cols |}.

Definition demo_x : list float := [35; 1200; 80]%float.

(** ** The entries of [run_prediction] *)

(** The entry the loop appends for the label at position [i]. *)
Definition loop_entry (rt : Runtime) (bundle : Bundle) (x : list float) (proba : ProbaOut)
    (i : nat) (lbl : string) (pred : Z) : Prediction :=
  {| label := lbl; predicted := pred; probability := label_probability proba i;
     reason_features := explain_and_generate_advice rt bundle x;
     p_advice := advice_for lbl |}.

(** [e] is the entry of a triggered position [i + k], [labels] being the
    labels from position [i] on. *)
Definition emitted (rt : Runtime) (bundle : Bundle) (x : list float) (proba : ProbaOut)
    (preds : list Z) (i : nat) (labels : list string) (e : Prediction) : Prop :=
  exists k lbl pred,
    nth_error labels k = Some lbl /\ nth_error preds (i + k) = Some pred /\
    triggered pred (label_probability proba (i + k)) = true /\
    e = loop_entry rt bundle x proba (i + k) lbl pred.

(** The entry of label [l] for the scenario row, with a probability read. *)
Definition demo_entry (b : Bundle) (l : string) (pred : Z) (p : float) : Prediction :=
  {| label := l; predicted := pred; probability := Some p;
     reason_features := explain_and_generate_advice demo_runtime b demo_x;
     p_advice := advice_for l |}.

(** The record of the direct-inference scenario. *)
Definition scenario_payload : gmap string PyVal :=
  list_to_map [("temperature", PyInt 35); ("co2_ppm", PyInt 1200); ("pm25", PyInt 80)].

(** The record the device sends, with the keys the route's docstring lists. *)
Definition device_payload : gmap string PyVal :=
  list_to_map
    [("temperature", PyFloat 31.5); ("humidity", PyInt 64); ("co2_ppm", PyInt 1200);
     ("co_ppm", PyFloat 4.5); ("pm25", PyInt 80); ("no2_ppm", PyFloat 0.25);
     ("aqi", PyInt 152)].




(** The [features] object of a reply, decoded again as a request record. *)
Definition features_as_payload (feature_values : list (string * float)) : gmap string PyVal :=
  list_to_map (map (fun kv => (fst kv, PyFloat (snd kv))) feature_values).

(** One round of the loop of [build_feature_values]. *)
Definition resolver_step (rt : Runtime) (payload : gmap string PyVal)
    (feature_values : list (string * float)) (col : string) : list (string * float) :=
  od_set col (feature_value rt payload col) feature_values.

(** The events of step 4: the call of [send_alert_email] and what it does. *)
Definition is_alert_event (ev : Event) : bool :=
  match ev with
  | AlertCall _ _ | MailSent _ | MailFailed _ => true
  | Stored _ _ | StoreFailed _ _ => false
  end.

(** Services that work, services whose store is down, and services whose
    SMTP server refuses the session. *)
Definition demo_services : Services := {|
  EMAIL_SENDER := Some "alerts@example.org";
  EMAIL_PASSWORD := Some "app-password";
  ALERT_TO_EMAIL := Some "owner@example.org";
  smtp_send := fun _ => Ret tt;
  new_document_id := "doc-1";
  firestore_set := fun _ _ => Ret tt
|}.

Definition demo_services_store_down : Services := {|
  EMAIL_SENDER := EMAIL_SENDER demo_services;
  EMAIL_PASSWORD := EMAIL_PASSWORD demo_services;
  ALERT_TO_EMAIL := ALERT_TO_EMAIL demo_services;
  smtp_send := smtp_send demo_services;
  new_document_id := "doc-1";
  firestore_set := fun _ _ => Raise (Exn OtherError "503 The service is currently unavailable.")
|}.

Definition demo_services_smtp_down : Services := {|
  EMAIL_SENDER := EMAIL_SENDER demo_services;
  EMAIL_PASSWORD := EMAIL_PASSWORD demo_services;
  ALERT_TO_EMAIL := ALERT_TO_EMAIL demo_services;
  smtp_send := fun _ => Raise (Exn OtherError "Connection refused");
  new_document_id := "doc-1";
  firestore_set := fun _ _ => Ret tt
|}.

(** A model that flags nothing. *)
Definition quiet_model : Model := {|
  predict_proba := fun _ => Ret (ProbaSeq [ [[0.9; 0.1]]; [[0.8; 0.2]] ]%float);
  predict := fun _ => Ret [0; 0; 0; 0; 0]%Z;
  tree_shap := tree_shap demo_model
|}.

Definition quiet_bundle : Bundle :=
  {| model := quiet_model; FEATURE_COLS := demo_features; LABEL_COLS := y_cols |}.

(** A bundle whose model predicts four of the five labels, the second one
    triggered. *)
Definition short_row_bundle : Bundle :=
  {| model := {| predict_proba := predict_proba demo_model;
                 predict := fun _ => Ret [0; 1; 0; 0]%Z;
                 tree_shap := tree_shap demo_model |};
     FEATURE_COLS := demo_features; LABEL_COLS := y_cols |}.

(** A bundle whose explainer attributes to four columns, one more than the
    schema names. *)
Definition wide_shap_bundle : Bundle :=
  {| model := {| predict_proba := predict_proba demo_model;
                 predict := predict demo_model;
                 tree_shap := fun _ _ =>
                   Ret (ShapMatrix
                          {| Np.ncols := 4; Np.rows := [[0.1; 0.2; 0.3; 0.9]%float] |}) |};
     FEATURE_COLS := demo_features; LABEL_COLS := y_cols |}.

(** The bundle [train_multilabel.py] stores: the training schema, the five
    labels, and a model whose estimators are random forest classifiers of a
    binary label.  For such an estimator SHAP returns the attributions of
    both classes, of opposite sign; here particulate matter and nitrogen
    dioxide weigh most.  [forest_bundle] has them as the list of shap before
    0.45, [forest_bundle_rank3] as the array of shap 0.45 and later. *)
Definition forest_class1 : Np.array2 :=
  {| Np.ncols := 11;
     Np.rows := [[0.02; 0.01; 0.21; 0.12; -0.03; 0.01; 0.05; 0.04; 0.03; 0.02; 0.01]%float] |}.

Definition forest_class0 : Np.array2 :=
  {| Np.ncols := 11; Np.rows := map (map PrimFloat.opp) (Np.rows forest_class1) |}.

Definition forest_bundle : Bundle :=
  {| model := {| predict_proba := predict_proba demo_model;
                 predict := predict demo_model;
                 tree_shap := fun _ _ =>
                   Ret (ShapPerClass forest_class0 [Np.rows forest_class1]) |};
     FEATURE_COLS := X_cols; LABEL_COLS := y_cols |}.

Definition forest_bundle_rank3 : Bundle :=
  {| model := {| predict_proba := predict_proba demo_model;
                 predict := predict demo_model;
                 tree_shap := fun _ _ =>
                   Ret (ShapRank3
                          {| Np.dim1 := 11; Np.dim2 := 2;
                             Np.planes :=
                               [map (fun v => [PrimFloat.opp v; v])
                                  [0.02; 0.01; 0.21; 0.12; -0.03; 0.01; 0.05; 0.04;
                                   0.03; 0.02; 0.01]%float] |}) |};
     FEATURE_COLS := X_cols; LABEL_COLS := y_cols |}.

(** The same schema and labels with an estimator of a single output, whose
    attributions are those of class 1 above. *)
Definition single_output_bundle : Bundle :=
  {| model := {| predict_proba := predict_proba demo_model;
                 predict := predict demo_model;
                 tree_shap := fun _ _ => Ret (ShapMatrix forest_class1) |};
     FEATURE_COLS := X_cols; LABEL_COLS := y_cols |}.

(** The row the training schema makes of the device record. *)
Definition device_x : list float :=
  [1200; 4.5; 80; 0.25; 31.5; 64; 152; 80; 0.25; 80; 0.25]%float.

(** The reply and the document of the scenario request at [demo_bundle]. *)
Definition demo_predictions : list Prediction :=
  [demo_entry demo_bundle "copd" 1 0.8; demo_entry demo_bundle "resp_inf" 0 0.35].

Definition demo_feature_values : list (string * float) :=
  [("temperature_c", 35); ("co2_ppm", 1200); ("pm2_5_ugm3", 80)]%float.

Definition demo_document : Document :=
  {| doc_features := demo_feature_values; doc_predictions := demo_predictions |}.

(** The character of a decimal digit. *)
Definition digit_char (d : Z) : ascii := ascii_of_nat (48 + Z.to_nat d).

(** ** Text: occurrences and lines *)




(** [s] holds no newline. *)
Fixpoint one_line (s : string) : bool :=
  match s with
  | EmptyString => true
  | String c s' => negb (Ascii.eqb c (ascii_of_nat 10)) && one_line s'
  end.

(** [s.split("\n")]: the lines of a text. *)
Fixpoint split_lines (s : string) : list string :=
  match s with
  | EmptyString => [EmptyString]
  | String c s' =>
      if Ascii.eqb c (ascii_of_nat 10) then EmptyString :: split_lines s'
      else
        match split_lines s' with
        | [] => [String c EmptyString]
        | l :: ls => String c l :: ls
        end
  end.

(** The first line of the alert body. *)
Definition alert_heading : string :=
  "The air-quality ML model detected potential health risks:".

(** * Properties *)

(** ** The order of floats *)

Section FloatOrder.

Lemma SFcompare_rank (a b : spec_float) :
  a <> S754_nan -> b <> S754_nan ->
  SFcompare a b = Some (lex_compare (rank a) (rank b)).
Proof.
  intros Ha Hb.
  destruct a as [sa|sa| |sa ma ea], b as [sb|sb| |sb mb eb]; try congruence;
    try (destruct sa); try (destruct sb); try reflexivity.
  cbn [SFcompare rank lex_compare].
  change (-1 ?= -1)%Z with Eq. cbv iota.
  rewrite Z.compare_opp, (Z.compare_antisym eb ea).
  destruct (eb ?= ea)%Z; cbn [CompOpp]; reflexivity.
Qed.

Lemma lex_compare_Lt (a b : Z * Z * Z) :
  lex_compare a b = Lt <->
  (a.1.1 < b.1.1 \/ (a.1.1 = b.1.1 /\ (a.1.2 < b.1.2 \/ (a.1.2 = b.1.2 /\ a.2 < b.2))))%Z.
Proof.
  destruct a as [[a1 a2] a3], b as [[b1 b2] b3]; cbn.
  destruct (Z.compare_spec a1 b1), (Z.compare_spec a2 b2), (Z.compare_spec a3 b3);
    split; intros Hc; try discriminate; try reflexivity; lia.
Qed.

Lemma lex_compare_Eq (a b : Z * Z * Z) : lex_compare a b = Eq <-> a = b.
Proof.
  destruct a as [[a1 a2] a3], b as [[b1 b2] b3]; cbn.
  destruct (Z.compare_spec a1 b1), (Z.compare_spec a2 b2), (Z.compare_spec a3 b3);
    split; intros Hc; try discriminate; try congruence; inversion Hc; lia.
Qed.

Lemma rank_class (a : spec_float) :
  (a = S754_nan /\ rank a = (3, 0, 0)%Z) \/ (a <> S754_nan /\ ((rank a).1.1 <= 2)%Z).
Proof.
  destruct a as [s|s| |s m e]; try destruct s; cbn;
    first [ left; split; [reflexivity | reflexivity] | right; split; [discriminate | lia] ].
Qed.

Lemma is_nan_Prim2SF (x : float) :
  PrimFloat.is_nan x = true <-> Prim2SF x = S754_nan.
Proof.
  unfold PrimFloat.is_nan. rewrite FloatAxioms.eqb_spec. unfold SFeqb.
  destruct (rank_class (Prim2SF x)) as [[-> _]|[Hn _]].
  - cbn. split; reflexivity.
  - rewrite (SFcompare_rank _ _ Hn Hn).
    assert (lex_compare (rank (Prim2SF x)) (rank (Prim2SF x)) = Eq) as ->
      by (apply lex_compare_Eq; reflexivity).
    cbn. split; [discriminate | contradiction].
Qed.

(** [Np.lt] is the strict lexicographic order of the keys. *)
Lemma np_lt_key (a b : float) :
  Np.lt a b = true <-> lex_compare (key a) (key b) = Lt.
Proof.
  unfold Np.lt, key. rewrite ltb_spec. unfold SFltb.
  pose proof (is_nan_Prim2SF a) as Na. pose proof (is_nan_Prim2SF b) as Nb.
  destruct (rank_class (Prim2SF a)) as [[Ea Ra]|[Ha Ra]],
           (rank_class (Prim2SF b)) as [[Eb Rb]|[Hb Rb]].
  - rewrite Ea, Eb. cbn.
    destruct (PrimFloat.is_nan a) eqn:Ia, (PrimFloat.is_nan b) eqn:Ib; cbn;
      split; intros H; try discriminate.
    destruct Na as [_ Na]. specialize (Na Ea). discriminate.
  - rewrite Ea. cbn [SFcompare].
    destruct (PrimFloat.is_nan b) eqn:Ib.
    + destruct Nb as [Nb _]. specialize (Nb eq_refl). contradiction.
    + rewrite lex_compare_Lt. cbn [rank fst snd orb andb].
      split; [discriminate | lia].
  - rewrite Eb.
    assert (SFcompare (Prim2SF a) S754_nan = None) as ->
      by (destruct (Prim2SF a); reflexivity).
    destruct (PrimFloat.is_nan b) eqn:Ib.
    2:{ destruct Nb as [_ Nb]. specialize (Nb Eb). discriminate. }
    destruct (PrimFloat.is_nan a) eqn:Ia.
    + destruct Na as [Na _]. specialize (Na eq_refl). contradiction.
    + rewrite lex_compare_Lt. cbn [rank fst snd orb andb negb].
      split; [lia | reflexivity].
  - rewrite (SFcompare_rank _ _ Ha Hb).
    destruct (PrimFloat.is_nan b) eqn:Ib.
    + destruct Nb as [Nb _]. specialize (Nb eq_refl). contradiction.
    + cbn. rewrite orb_false_r.
      destruct (lex_compare (rank (Prim2SF a)) (rank (Prim2SF b)));
        split; intros H; congruence.
Qed.

Lemma np_le_key (a b : float) :
  Np.le a b = true <-> lex_compare (key b) (key a) <> Lt.
Proof.
  unfold Np.le. rewrite negb_true_iff, <- not_true_iff_false, np_lt_key. reflexivity.
Qed.

Lemma np_le_total (a b : float) : Np.le a b = true \/ Np.le b a = true.
Proof.
  rewrite !np_le_key, !lex_compare_Lt. lia.
Qed.

Lemma np_le_trans (a b c : float) :
  Np.le a b = true -> Np.le b c = true -> Np.le a c = true.
Proof.
  rewrite !np_le_key, !lex_compare_Lt. lia.
Qed.

Lemma np_le_refl (a : float) : Np.le a a = true.
Proof.
  destruct (np_le_total a a); assumption.
Qed.

End FloatOrder.

(** ** [Np.argsort] sorts, for every kernel *)

Section Argsort.

Lemma insert_perm (x : nat * float) (l : list (nat * float)) :
  Permutation (Np.insert x l) (x :: l).
Proof.
  induction l as [|y l IH]; cbn.
  - reflexivity.
  - destruct (Np.le (snd x) (snd y)).
    + reflexivity.
    + rewrite IH. apply perm_swap.
Qed.

Lemma sort_pairs_perm (l : list (nat * float)) :
  Permutation (Np.sort_pairs l) l.
Proof.
  induction l as [|x l IH]; cbn.
  - reflexivity.
  - rewrite insert_perm. constructor. exact IH.
Qed.

Lemma insert_sorted (x : nat * float) (l : list (nat * float)) :
  StronglySorted le_pair l -> StronglySorted le_pair (Np.insert x l).
Proof.
  induction l as [|y l IH]; cbn; intros Hs.
  - constructor; constructor.
  - apply StronglySorted_inv in Hs as [Hl Hy].
    destruct (Np.le (snd x) (snd y)) eqn:Hxy.
    + constructor.
      * constructor; assumption.
      * constructor; [exact Hxy|].
        eapply Forall_impl; [exact Hy|].
        intros z Hz. unfold le_pair in *. eapply np_le_trans; eassumption.
    + constructor.
      * apply IH, Hl.
      * rewrite insert_perm. constructor; [|exact Hy].
        unfold le_pair. destruct (np_le_total (snd x) (snd y)); congruence.
Qed.

Lemma sort_pairs_sorted (l : list (nat * float)) :
  StronglySorted le_pair (Np.sort_pairs l).
Proof.
  induction l as [|x l IH]; cbn.
  - constructor.
  - apply insert_sorted, IH.
Qed.

Lemma in_combine_seq {A : Type} (v : list A) (s k : nat) (a : A) :
  In (k, a) (combine (seq s (length v)) v) <->
  (s <= k)%nat /\ nth_error v (k - s) = Some a.
Proof.
  revert s. induction v as [|b v IH]; intros s; cbn [length seq combine In].
  - split; [contradiction|]. intros [_ H]. destruct (k - s)%nat; discriminate.
  - rewrite IH. split.
    + intros [H|[Hle Hn]].
      * inversion H; subst. rewrite Nat.sub_diag. split; [lia|reflexivity].
      * split; [lia|]. replace (k - s)%nat with (S (k - S s)) by lia. exact Hn.
    + intros [Hle Hn]. destruct (decide (k = s)) as [->|Hne].
      * left. rewrite Nat.sub_diag in Hn. cbn in Hn. congruence.
      * right. split; [lia|].
        replace (k - s)%nat with (S (k - S s)) in Hn by lia. exact Hn.
Qed.

Lemma in_enumerate {A : Type} (v : list A) (k : nat) (a : A) :
  In (k, a) (Np.enumerate v) <-> nth_error v k = Some a.
Proof.
  unfold Np.enumerate. rewrite in_combine_seq, Nat.sub_0_r.
  split; [intros [_ H]; exact H | intros H; split; [lia | exact H]].
Qed.

Lemma fst_enumerate {A : Type} (v : list A) :
  map fst (Np.enumerate v) = seq 0 (length v).
Proof.
  unfold Np.enumerate. generalize 0%nat.
  induction v as [|b v IH]; intros s; cbn; [reflexivity|]. f_equal. apply IH.
Qed.

Lemma stable_argsort_perm (v : list float) :
  Permutation (Np.stable_argsort v) (seq 0 (length v)).
Proof.
  unfold Np.stable_argsort. rewrite <- fst_enumerate.
  apply Permutation_map, sort_pairs_perm.
Qed.

(** The order of the values of [v] at two indices. *)
Lemma ascending_sorted (v : list float) (idx : list nat) :
  Np.ascending v idx = true <->
  StronglySorted (fun i j => Np.le (nth i v nan) (nth j v nan) = true) idx.
Proof.
  induction idx as [|i idx IH].
  - split; [constructor|reflexivity].
  - destruct idx as [|j idx].
    + split; [intros _; repeat constructor|reflexivity].
    + change (Np.ascending v (i :: j :: idx))
        with (Np.le (nth i v nan) (nth j v nan) && Np.ascending v (j :: idx)).
      rewrite andb_true_iff, IH. split.
      * intros [Hij Hs]. constructor; [exact Hs|].
        constructor; [exact Hij|].
        apply StronglySorted_inv in Hs as [_ Hj].
        eapply Forall_impl; [exact Hj|].
        intros k Hk. cbn in Hk. eapply np_le_trans; eassumption.
      * intros Hs. apply StronglySorted_inv in Hs as [Hs Hi].
        split; [|exact Hs]. apply Forall_inv in Hi. exact Hi.
Qed.

Lemma ascending_map_fst (v : list float) (ps : list (nat * float)) :
  (forall i a, In (i, a) ps -> nth i v nan = a) ->
  StronglySorted le_pair ps ->
  StronglySorted (fun i j => Np.le (nth i v nan) (nth j v nan) = true) (map fst ps).
Proof.
  intros Hval Hs. induction Hs as [|[i a] ps Hs IH Hall]; cbn [map fst].
  - constructor.
  - constructor.
    + apply IH. intros j b Hj. apply Hval. right. exact Hj.
    + apply Forall_forall. intros j Hj.
      apply list_elem_of_In, in_map_iff in Hj as ([j' b] & <- & Hj). cbn [fst].
      rewrite (Hval i a) by (left; reflexivity).
      rewrite (Hval j' b) by (right; exact Hj).
      rewrite List.Forall_forall in Hall. apply (Hall (j', b) Hj).
Qed.

(** What [Np.is_argsort] checks: a permutation of the indices, sorted by
    value. *)
Lemma is_argsort_spec (v : list float) (idx : list nat) :
  Np.is_argsort v idx = true ->
  Permutation idx (seq 0 (length v)) /\
  StronglySorted (fun i j => Np.le (nth i v nan) (nth j v nan) = true) idx.
Proof.
  unfold Np.is_argsort. rewrite !andb_true_iff.
  intros [[Hlen Hall] Hasc]. apply Nat.eqb_eq in Hlen. split.
  - symmetry. apply submseteq_length_Permutation; [|rewrite length_seq; lia].
    apply NoDup_submseteq; [apply NoDup_seq|].
    intros k Hk. apply list_elem_of_In in Hk. apply list_elem_of_In.
    rewrite forallb_forall in Hall. specialize (Hall k Hk).
    apply existsb_exists in Hall as (k' & Hk' & Heq).
    apply Nat.eqb_eq in Heq. subst k'. exact Hk'.
  - apply ascending_sorted, Hasc.
Qed.

Lemma stable_argsort_is_argsort (v : list float) :
  Np.is_argsort v (Np.stable_argsort v) = true.
Proof.
  pose proof (stable_argsort_perm v) as Hperm.
  unfold Np.is_argsort. rewrite !andb_true_iff. split; [split|].
  - apply Nat.eqb_eq. rewrite (Permutation_length Hperm). apply length_seq.
  - apply forallb_forall. intros k Hk. apply existsb_exists. exists k.
    split; [|apply Nat.eqb_refl].
    eapply Permutation_in; [symmetry; exact Hperm|exact Hk].
  - apply ascending_sorted. unfold Np.stable_argsort.
    apply ascending_map_fst; [|apply sort_pairs_sorted].
    intros i a Hin. apply nth_error_nth.
    apply in_enumerate. eapply Permutation_in; [apply sort_pairs_perm|exact Hin].
Qed.

(** Whatever the kernel, [Np.argsort] arranges the indices in ascending
    order of value. *)
Lemma argsort_is_argsort (kernel : list float -> list nat) (v : list float) :
  Np.is_argsort v (Np.argsort kernel v) = true.
Proof.
  unfold Np.argsort. destruct (Np.is_argsort v (kernel v)) eqn:E.
  - exact E.
  - apply stable_argsort_is_argsort.
Qed.

Lemma argsort_perm (kernel : list float -> list nat) (v : list float) :
  Permutation (Np.argsort kernel v) (seq 0 (length v)).
Proof.
  apply is_argsort_spec, argsort_is_argsort.
Qed.

Lemma argsort_length (kernel : list float -> list nat) (v : list float) :
  length (Np.argsort kernel v) = length v.
Proof.
  rewrite (Permutation_length (argsort_perm kernel v)). apply length_seq.
Qed.

(** A kernel that answers with an ascending arrangement is taken at its
    word. *)
Lemma argsort_kernel_answer (kernel : list float -> list nat) (v : list float) :
  Np.is_argsort v (kernel v) = true -> Np.argsort kernel v = kernel v.
Proof.
  intros H. unfold Np.argsort. rewrite H. reflexivity.
Qed.

(** The last two indices of [Np.argsort v] hold the largest and the second
    largest value of [v] in the order [Np.le], whatever the kernel does with
    equal values. *)
Lemma argsort_top2 (kernel : list float -> list nat) (v : list float) :
  (2 <= length v)%nat ->
  exists s i2 i1 a2 a1,
    Np.argsort kernel v = (s ++ [i2; i1])%list /\
    nth_error v i1 = Some a1 /\ nth_error v i2 = Some a2 /\ i1 <> i2 /\
    (forall k a, nth_error v k = Some a -> Np.le a a1 = true) /\
    (forall k a, nth_error v k = Some a -> k <> i1 -> Np.le a a2 = true).
Proof.
  intros Hlen.
  destruct (is_argsort_spec v _ (argsort_is_argsort kernel v)) as [Hperm Hsorted].
  pose proof (argsort_length kernel v) as Hl.
  destruct (Np.argsort kernel v) as [|i1 idx _] using rev_ind; [cbn in Hl; lia|].
  destruct idx as [|i2 s _] using rev_ind; [cbn in Hl; lia|].
  rewrite <- app_assoc in *. cbn [app] in *.
  assert (forall k, In k (s ++ [i2; i1])%list <-> (k < length v)%nat) as Hin.
  { intros k. split; intros Hk.
    - eapply Permutation_in in Hk; [|exact Hperm]. apply in_seq in Hk. lia.
    - eapply Permutation_in; [symmetry; exact Hperm|]. apply in_seq. lia. }
  assert (NoDup (s ++ [i2; i1])%list) as Hnd.
  { rewrite Hperm. apply NoDup_seq. }
  assert (forall k, (k < length v)%nat -> nth_error v k = Some (nth k v nan)) as Hnth.
  { intros k Hk. destruct (nth_error v k) as [a|] eqn:E.
    - f_equal. symmetry. apply nth_error_nth, E.
    - apply nth_error_None in E. lia. }
  apply StronglySorted_app in Hsorted as (Hs12 & Hs1 & Hs2).
  apply StronglySorted_inv in Hs2 as [_ H21].
  apply Forall_inv in H21.
  exists s, i2, i1, (nth i2 v nan), (nth i1 v nan).
  split; [reflexivity|]. split; [|split; [|split; [|split]]].
  - apply Hnth, Hin. rewrite in_app_iff. right. right. left. reflexivity.
  - apply Hnth, Hin. rewrite in_app_iff. right. left. reflexivity.
  - intros ->. apply NoDup_app in Hnd as (_ & _ & Hnd).
    apply NoDup_cons in Hnd as [Hnd _]. apply Hnd. left.
  - intros k a Hk. rewrite <- (nth_error_nth _ _ nan Hk).
    assert (In k (s ++ [i2; i1])%list) as Hk'
      by (apply Hin; apply nth_error_Some; congruence).
    rewrite in_app_iff in Hk'. destruct Hk' as [Hk'|[<-|[<-|[]]]].
    + apply list_elem_of_In in Hk'. apply (Hs12 k i1 Hk').
      apply list_elem_of_In. right. left. reflexivity.
    + exact H21.
    + apply np_le_refl.
  - intros k a Hk Hne. rewrite <- (nth_error_nth _ _ nan Hk).
    assert (In k (s ++ [i2; i1])%list) as Hk'
      by (apply Hin; apply nth_error_Some; congruence).
    rewrite in_app_iff in Hk'. destruct Hk' as [Hk'|[<-|[<-|[]]]].
    + apply list_elem_of_In in Hk'. apply (Hs12 k i2 Hk').
      apply list_elem_of_In. left. reflexivity.
    + apply np_le_refl.
    + contradiction.
Qed.

End Argsort.

(** ** The explainer *)

Section ExplainerFacts.

Variable rt : Runtime.
Variable bundle : Bundle.

Lemma list_comp_Ret {A B : Type} (f : A -> pyres B) (cs : list A) (bs : list B) :
  list_comp f cs = Ret bs -> Forall2 (fun c b => f c = Ret b) cs bs.
Proof.
  revert bs. induction cs as [|c cs IH]; cbn; intros bs H.
  - inversion H. constructor.
  - destruct (f c) as [b|e] eqn:Hc; cbn in H; [|discriminate].
    destruct (list_comp f cs) as [bs'|e]; cbn in H; [|discriminate].
    inversion H; subst. constructor; [exact Hc | apply IH; reflexivity].
Qed.

Lemma list_item_In {A : Type} (l : list A) (i : nat) (a : A) :
  list_item l i = Ret a -> In a l.
Proof.
  unfold list_item. destruct (nth_error l i) eqn:E; intros H; inversion H; subst.
  eapply nth_error_In, E.
Qed.

Lemma slice_last_length {A : Type} (n : nat) (l : list A) :
  (length (slice_last n l) <= n)%nat.
Proof.
  unfold slice_last. rewrite length_skipn. lia.
Qed.

Lemma slice_first_length {A : Type} (n : nat) (l : list A) :
  (length (slice_first n l) <= n)%nat.
Proof.
  unfold slice_first. rewrite length_firstn. lia.
Qed.


(** Indexing the schema by the rows of an index matrix names nothing: it
    raises at the first row. *)
Lemma list_comp_by_array {A : Type} (l : list A) (idx : list (list nat)) :
  list_comp (list_item_by_array l) idx
  = match idx with
    | [] => Ret []
    | _ :: _ =>
        Raise (Exn TypeError "only integer scalar arrays can be converted to a scalar index")
    end.
Proof.
  destruct idx; reflexivity.
Qed.

(** The attempt of the explainer names schema features by their position in
    the ranking, at most two of them. *)
Lemma explain_attempt_Ret (x : list float) (names : list string) :
  explain_attempt rt bundle x = Ret names ->
  names = [] \/
  exists sv,
    tree_shap (model bundle) 0 x = Ret (ShapMatrix sv) /\
    Forall2 (fun i f => list_item (FEATURE_COLS bundle) i = Ret f)
      (rev (slice_last 2 (Np.argsort (argsort_kernel rt) (Np.mean_axis0 (Np.abs sv)))))
      names.
Proof.
  unfold explain_attempt. intros E.
  destruct (tree_shap (model bundle) 0 x) as [[sv|c cs|t]|e]; cbn [bind] in E;
    [| | |discriminate].
  - right. exists sv. split; [reflexivity|]. apply list_comp_Ret, E.
  - left. cbn zeta in E. rewrite list_comp_by_array in E.
    destruct (rev _); [|discriminate].
    inversion E. reflexivity.
  - left. rewrite list_comp_by_array in E. destruct (rev _); [|discriminate].
    inversion E. reflexivity.
Qed.

(** Both paths of the explainer give at most two names, all of the schema. *)
Lemma explain_shape (x : list float) :
  (length (explain_and_generate_advice rt bundle x) <= 2)%nat /\
  (forall f, In f (explain_and_generate_advice rt bundle x) -> In f (FEATURE_COLS bundle)).
Proof.
  unfold explain_and_generate_advice, try_except.
  destruct (explain_attempt rt bundle x) as [names|e] eqn:E.
  - apply explain_attempt_Ret in E as [->|(sv & _ & E)].
    { split; [cbn; lia|intros f []]. }
    split.
    + rewrite <- (Forall2_length _ _ _ E), length_rev. apply slice_last_length.
    + intros f Hf. apply list_elem_of_In, list_elem_of_lookup in Hf as [k Hk].
      destruct (Forall2_lookup_r _ _ _ _ _ E Hk) as (i & _ & Hi).
      eapply list_item_In, Hi.
  - split.
    + apply slice_first_length.
    + intros f Hf. unfold slice_first in Hf.
      apply list_elem_of_In. apply list_elem_of_In in Hf.
      eapply subseteq_take, Hf.
Qed.

Lemma nth_error_lt {A : Type} (l : list A) (i : nat) (a : A) :
  nth_error l i = Some a -> (i < length l)%nat.
Proof.
  intros H. apply nth_error_Some. congruence.
Qed.


Lemma mean_axis0_3_rows (t : Np.array3) :
  length (Np.rows (Np.mean_axis0_3 t)) = Np.dim1 t.
Proof.
  unfold Np.mean_axis0_3. cbn [Np.rows]. rewrite length_map, length_seq. reflexivity.
Qed.

(** The last two rows of a matrix with a row, last row first. *)
Lemma rev_slice_last_cons {A : Type} (l : list A) :
  l <> [] -> exists a r, rev (slice_last 2 l) = a :: r.
Proof.
  intros Hl. destruct (rev (slice_last 2 l)) as [|a r] eqn:E; [|eauto].
  exfalso. apply (f_equal (@length A)) in E.
  rewrite length_rev in E. unfold slice_last in E. rewrite length_skipn in E.
  destruct l; [contradiction|]. cbn [length] in E. lia.
Qed.



(** The ranking of a three-dimensional attribution array with a row holds
    arrays, and the first of them stops the comprehension. *)
Lemma rank_rows_raises (t : Np.array3) :
  (0 < Np.dim1 t)%nat ->
  list_comp (list_item_by_array (FEATURE_COLS bundle))
    (rev (slice_last 2
            (Np.argsort_rows (argsort_kernel rt) (Np.mean_axis0_3 (Np.abs3 t)))))
  = Raise (Exn TypeError "only integer scalar arrays can be converted to a scalar index").
Proof.
  intros Hrows. rewrite list_comp_by_array.
  destruct (rev_slice_last_cons
              (Np.argsort_rows (argsort_kernel rt) (Np.mean_axis0_3 (Np.abs3 t))))
    as (a & r & ->); [|reflexivity].
  intros Hnil. apply (f_equal (@length (list nat))) in Hnil.
  unfold Np.argsort_rows in Hnil. rewrite length_map, mean_axis0_3_rows in Hnil.
  cbn in Hnil. lia.
Qed.

End ExplainerFacts.

(** ** Claims about the explainer *)

(** C4.  The first half of the claim holds: whenever the body of the [try]
    in [explain_and_generate_advice] raises, and in particular whenever the
    SHAP call raises, the explainer returns the first two entries of the
    feature schema in schema order; it is a total function, so no error
    reaches the caller.  The second half does not hold for the attributions
    of a classifier, which are what SHAP returns for the estimators of the
    stored model.  There SHAP succeeds, with one array per class or with one
    array of three dimensions; the ranking then holds rows of a matrix where
    the code expects feature indices, [FEATURE_COLS[i]] raises [TypeError]
    inside the [try], and the explainer returns the first two schema names
    whatever the attributions are. *)
Theorem explainer_class_attributions_fall_back (rt : Runtime) (bundle : Bundle)
    (x : list float) :
  (forall e, explain_attempt rt bundle x = Raise e ->
     explain_and_generate_advice rt bundle x = firstn 2 (FEATURE_COLS bundle)) /\
  (forall e, tree_shap (model bundle) 0 x = Raise e ->
     explain_and_generate_advice rt bundle x = firstn 2 (FEATURE_COLS bundle)) /\
  (forall class0 classes,
     tree_shap (model bundle) 0 x = Ret (ShapPerClass class0 classes) ->
     Np.rows class0 <> [] ->
     explain_attempt rt bundle x
     = Raise (Exn TypeError "only integer scalar arrays can be converted to a scalar index") /\
     explain_and_generate_advice rt bundle x = firstn 2 (FEATURE_COLS bundle)) /\
  (forall values,
     tree_shap (model bundle) 0 x = Ret (ShapRank3 values) ->
     (0 < Np.dim1 values)%nat ->
     explain_attempt rt bundle x
     = Raise (Exn TypeError "only integer scalar arrays can be converted to a scalar index") /\
     explain_and_generate_advice rt bundle x = firstn 2 (FEATURE_COLS bundle)).
Proof.
  split; [|split; [|split]].
  - intros e He. unfold explain_and_generate_advice. rewrite He. reflexivity.
  - intros e He. unfold explain_and_generate_advice, explain_attempt.
    rewrite He. reflexivity.
  - intros c cs Hsv Hrows.
    assert (explain_attempt rt bundle x
            = Raise (Exn TypeError
                       "only integer scalar arrays can be converted to a scalar index"))
      as He.
    { unfold explain_attempt. rewrite Hsv. cbn [bind]. cbn zeta.
      apply rank_rows_raises. unfold Np.stack. cbn [Np.dim1].
      destruct (Np.rows c); [contradiction|cbn; lia]. }
    split; [exact He|]. unfold explain_and_generate_advice. rewrite He. reflexivity.
  - intros t Hsv Hrows.
    assert (explain_attempt rt bundle x
            = Raise (Exn TypeError
                       "only integer scalar arrays can be converted to a scalar index"))
      as He.
    { unfold explain_attempt. rewrite Hsv. cbn [bind]. apply rank_rows_raises, Hrows. }
    split; [exact He|]. unfold explain_and_generate_advice. rewrite He. reflexivity.
Qed.

(** C4 at the stored bundle and the row of the device record.  Both forms
    of the class attributions let SHAP succeed and give the first two names
    of the training schema, though particulate matter and nitrogen dioxide
    carry the largest attributions for either class; an estimator with one
    output and the attributions of class 1 gives these two. *)
Lemma explainer_class_attributions_fall_back_witness :
  (explain_attempt demo_runtime forest_bundle device_x
   = Raise (Exn TypeError "only integer scalar arrays can be converted to a scalar index") /\
   explain_and_generate_advice demo_runtime forest_bundle device_x = ["co2_ppm"; "co_ppm"]) /\
  (explain_attempt demo_runtime forest_bundle_rank3 device_x
   = Raise (Exn TypeError "only integer scalar arrays can be converted to a scalar index") /\
   explain_and_generate_advice demo_runtime forest_bundle_rank3 device_x
   = ["co2_ppm"; "co_ppm"]) /\
  Np.mean_axis0 (Np.abs forest_class0) = Np.mean_axis0 (Np.abs forest_class1) /\
  rev (slice_last 2
         (Np.argsort (argsort_kernel demo_runtime) (Np.mean_axis0 (Np.abs forest_class1))))
  = [2; 3]%nat /\
  explain_and_generate_advice demo_runtime single_output_bundle device_x
  = ["pm2_5_ugm3"; "no2_ppb"].
Proof.
  split; [|split; [|split; [|split]]].
  - apply (proj1 (proj2 (proj2
             (explainer_class_attributions_fall_back demo_runtime forest_bundle device_x)))
             forest_class0 [Np.rows forest_class1]).
    + reflexivity.
    + discriminate.
  - apply (proj2 (proj2 (proj2
             (explainer_class_attributions_fall_back demo_runtime forest_bundle_rank3
                device_x)))
             {| Np.dim1 := 11; Np.dim2 := 2;
                Np.planes :=
                  [map (fun v => [PrimFloat.opp v; v])
                     [0.02; 0.01; 0.21; 0.12; -0.03; 0.01; 0.05; 0.04;
                      0.03; 0.02; 0.01]%float] |}).
    + reflexivity.
    + cbn. lia.
  - vm_compute. reflexivity.
  - vm_compute. reflexivity.
  - vm_compute. reflexivity.
Defined.



(** With equal scores the named features depend on the sorting kernel: for
    the attributions 0.2, -0.2, 0.2 a stable kernel ranks columns 2 and 1
    first, a kernel that reverses equal values columns 0 and 1. *)
Example explainer_tied_scores :
  let tied := {| model := {| predict_proba := predict_proba demo_model;
                             predict := predict demo_model;
                             tree_shap := fun _ _ =>
                               Ret (ShapMatrix {| Np.ncols := 3;
                                                  Np.rows := [[0.2; -0.2; 0.2]%float] |}) |};
                 FEATURE_COLS := demo_features; LABEL_COLS := y_cols |} in
  explain_and_generate_advice demo_runtime tied demo_x = ["pm2_5_ugm3"; "co2_ppm"] /\
  explain_and_generate_advice scenario_runtime tied demo_x = ["temperature_c"; "co2_ppm"].
Proof.
  split; vm_compute; reflexivity.
Qed.

(** ** The prediction loop *)

Section PredictionFacts.

Variable rt : Runtime.
Variable bundle : Bundle.
Variable x : list float.
Variable proba : ProbaOut.
Variable preds : list Z.

Lemma prediction_loop_Ret (labels : list string) :
  forall i acc result,
    prediction_loop rt bundle x proba preds i labels acc = Ret result ->
    exists new, result = (acc ++ new)%list /\
                forall e, In e new <-> emitted rt bundle x proba preds i labels e.
Proof.
  induction labels as [|lbl labels IH]; intros i acc result H; cbn in H.
  - inversion H; subst. exists []. rewrite app_nil_r. split; [reflexivity|].
    intros e. split; [contradiction|].
    intros (k & l & p & Hk & _). destruct k; discriminate.
  - unfold Np.item in H. destruct (nth_error preds i) as [pred|] eqn:Hp; cbn [bind] in H;
      [|discriminate].
    destruct (triggered pred (label_probability proba i)) eqn:Ht.
    + apply IH in H as (new & -> & Hnew).
      exists (loop_entry rt bundle x proba i lbl pred :: new). split.
      * rewrite <- app_assoc. reflexivity.
      * intros e. cbn [In]. rewrite Hnew. split.
        -- intros [<-|(k & l & p & Hk & Hpk & Htk & ->)].
           ++ exists 0%nat, lbl, pred. rewrite Nat.add_0_r. repeat split; assumption.
           ++ exists (S k), l, p. replace (i + S k)%nat with (S i + k)%nat by lia.
              repeat split; assumption.
        -- intros (k & l & p & Hk & Hpk & Htk & ->). destruct k as [|k].
           ++ left. rewrite Nat.add_0_r in *. cbn in Hk. congruence.
           ++ right. exists k, l, p. replace (S i + k)%nat with (i + S k)%nat by lia.
              repeat split; assumption.
    + apply IH in H as (new & -> & Hnew).
      exists new. split; [reflexivity|].
      intros e. rewrite Hnew. split.
      * intros (k & l & p & Hk & Hpk & Htk & ->).
        exists (S k), l, p. replace (i + S k)%nat with (S i + k)%nat by lia.
        repeat split; assumption.
      * intros (k & l & p & Hk & Hpk & Htk & ->). destruct k as [|k].
        -- rewrite Nat.add_0_r in *. congruence.
        -- exists k, l, p. replace (S i + k)%nat with (i + S k)%nat by lia.
           repeat split; assumption.
Qed.

(** The loop finishes when [preds] has an entry for every label. *)
Lemma prediction_loop_total (labels : list string) :
  forall i acc,
    (i + length labels <= length preds)%nat ->
    exists result, prediction_loop rt bundle x proba preds i labels acc = Ret result.
Proof.
  induction labels as [|lbl labels IH]; intros i acc Hlen; cbn in *.
  - eexists. reflexivity.
  - unfold Np.item. destruct (nth_error preds i) as [pred|] eqn:Hp.
    2:{ apply nth_error_None in Hp. lia. }
    cbn [bind]. destruct (triggered _ _); apply IH; lia.
Qed.

Lemma run_prediction_Ret (out : PredictionOutput) :
  predict_proba (model bundle) x = Ret proba ->
  predict (model bundle) x = Ret preds ->
  run_prediction rt bundle x = Ret out ->
  status out = "ok" /\
  forall e, In e (predictions out) <-> emitted rt bundle x proba preds 0 (LABEL_COLS bundle) e.
Proof.
  intros Hproba Hpreds. unfold run_prediction. rewrite Hproba, Hpreds. cbn [bind].
  destruct (prediction_loop rt bundle x proba preds 0 (LABEL_COLS bundle) []) as [result|e] eqn:E;
    cbn [bind]; [|discriminate].
  intros H. inversion H; subst. cbn.
  apply prediction_loop_Ret in E as (new & -> & Hnew). split; [reflexivity|exact Hnew].
Qed.

End PredictionFacts.

Lemma run_prediction_inv (rt : Runtime) (bundle : Bundle) (x : list float) (out : PredictionOutput) :
  run_prediction rt bundle x = Ret out ->
  exists proba preds,
    predict_proba (model bundle) x = Ret proba /\ predict (model bundle) x = Ret preds.
Proof.
  unfold run_prediction. intros Hrun.
  destruct (predict_proba (model bundle) x) as [proba|]; [|discriminate Hrun].
  destruct (predict (model bundle) x) as [preds|]; [|discriminate Hrun].
  exists proba, preds. split; reflexivity.
Qed.

Lemma leb_not_ltb (a b : float) :
  (a <=? b)%float = true -> (b <? a)%float = false.
Proof.
  rewrite leb_spec, ltb_spec. unfold SFleb, SFltb.
  destruct (rank_class (Prim2SF a)) as [[-> _]|[Ha _]]; [discriminate|].
  destruct (rank_class (Prim2SF b)) as [[-> _]|[Hb _]];
    [destruct (Prim2SF a); discriminate|].
  rewrite (SFcompare_rank _ _ Ha Hb), (SFcompare_rank _ _ Hb Ha).
  destruct (lex_compare (rank (Prim2SF b)) (rank (Prim2SF a))) eqn:Hba; try reflexivity.
  apply lex_compare_Lt in Hba.
  destruct (lex_compare (rank (Prim2SF a)) (rank (Prim2SF b))) eqn:Hab; intros Hc.
  - apply lex_compare_Eq in Hab. rewrite Hab in Hba. lia.
  - apply lex_compare_Lt in Hab. lia.
  - discriminate.
Qed.

(** ** Claims about [run_prediction] *)

(** C1.  When the model answers both calls and its prediction row covers the
    label set, [run_prediction] returns a list which holds the entry of a
    label position if and only if the binary prediction there equals 1 or a
    probability was read there and is strictly greater than 0.3 (so the
    prediction alone decides when no probability could be read).  Hence a
    label [L] of the label set has an entry if and only if one of its
    positions satisfies that test, and a label whose prediction is not 1 and
    whose probability is absent or at most 0.3 has no entry. *)
Theorem run_prediction_trigger (rt : Runtime) (bundle : Bundle) (x : list float)
    (proba : ProbaOut) (preds : list Z) :
  predict_proba (model bundle) x = Ret proba ->
  predict (model bundle) x = Ret preds ->
  (length (LABEL_COLS bundle) <= length preds)%nat ->
  exists out,
    run_prediction rt bundle x = Ret out /\ status out = "ok" /\
    (forall i L pred,
       nth_error (LABEL_COLS bundle) i = Some L -> nth_error preds i = Some pred ->
       (In (loop_entry rt bundle x proba i L pred) (predictions out) <->
        (pred = 1%Z \/
         exists v, label_probability proba i = Some v /\ (0.3 <? v)%float = true))) /\
    (forall L, In L (LABEL_COLS bundle) ->
       ((exists e, In e (predictions out) /\ label e = L) <->
        (exists i pred,
           nth_error (LABEL_COLS bundle) i = Some L /\ nth_error preds i = Some pred /\
           (pred = 1%Z \/
            exists v, label_probability proba i = Some v /\ (0.3 <? v)%float = true)))) /\
    (forall L,
       (forall i, nth_error (LABEL_COLS bundle) i = Some L ->
          exists pred, nth_error preds i = Some pred /\ pred <> 1%Z /\
            (label_probability proba i = None \/
             exists v, label_probability proba i = Some v /\ (v <=? 0.3)%float = true)) ->
       ~ exists e, In e (predictions out) /\ label e = L).
Proof.
  intros Hproba Hpreds Hlen.
  assert (forall pred p, triggered pred p = true <->
            (pred = 1%Z \/ exists v, p = Some v /\ (0.3 <? v)%float = true)) as Htrig.
  { intros pred p. unfold triggered. rewrite orb_true_iff, Z.eqb_eq.
    destruct p as [v|].
    - split; intros [H|H]; auto.
      + right. exists v. split; [reflexivity|exact H].
      + destruct H as (v' & Hv & H). inversion Hv; subst. right. exact H.
    - split; intros [H|H]; auto; [discriminate|].
      destruct H as (v' & Hv & _). discriminate. }
  destruct (prediction_loop_total rt bundle x proba preds (LABEL_COLS bundle) 0 [])
    as [result Hres]; [cbn; lia|].
  exists {| status := "ok"; predictions := result |}.
  assert (run_prediction rt bundle x = Ret {| status := "ok"; predictions := result |}) as Hrun.
  { unfold run_prediction. rewrite Hproba, Hpreds. cbn [bind]. rewrite Hres. reflexivity. }
  destruct (run_prediction_Ret rt bundle x proba preds _ Hproba Hpreds Hrun) as [_ Hin].
  cbn [predictions status] in *.
  assert (forall L, (exists e, In e result /\ label e = L) <->
            (exists i pred,
               nth_error (LABEL_COLS bundle) i = Some L /\ nth_error preds i = Some pred /\
               (pred = 1%Z \/
                exists v, label_probability proba i = Some v /\ (0.3 <? v)%float = true)))
    as Hiff.
  { intros L. split.
    - intros (e & He & <-). apply Hin in He as (k & l & p & Hk & Hp & Ht & ->).
      cbn in *. exists k, p. repeat split; try assumption. apply Htrig, Ht.
    - intros (i & pred & Hi & Hp & Ht).
      eexists. split.
      + apply Hin. exists i, L, pred. cbn. repeat split; try eassumption.
        apply Htrig, Ht.
      + reflexivity. }
  split; [exact Hrun|]. split; [reflexivity|]. split; [|split].
  - intros i L pred Hi Hp. rewrite Hin. split.
    + intros (k & l & p & Hk & Hpk & Ht & Heq). apply Htrig.
      injection Heq as -> -> ->. exact Ht.
    + intros Ht. exists i, L, pred. repeat split; try assumption. apply Htrig, Ht.
  - intros L _. apply Hiff.
  - intros L Hno Hex. apply Hiff in Hex as (i & pred & Hi & Hp & Ht).
    destruct (Hno i Hi) as (pred' & Hp' & Hne & Hprob).
    rewrite Hp in Hp'. inversion Hp'; subst pred'.
    destruct Ht as [->|(v & Hv & Hgt)]; [contradiction|].
    destruct Hprob as [Hnone|(v' & Hv' & Hle)]; [congruence|].
    rewrite Hv in Hv'. inversion Hv'; subst v'.
    apply leb_not_ltb in Hle. congruence.
Qed.

(** C1 at [demo_bundle]: of the five labels exactly [copd] (prediction 1)
    and [resp_inf] (probability 0.35) are reported. *)
Lemma run_prediction_trigger_witness :
  exists out,
    run_prediction demo_runtime demo_bundle demo_x = Ret out /\ status out = "ok" /\
    map label (predictions out) = ["copd"; "resp_inf"] /\
    (forall L, In L y_cols ->
       ((exists e, In e (predictions out) /\ label e = L) <->
        (exists i pred,
           nth_error y_cols i = Some L /\ nth_error [0; 1; 0; 0; 0]%Z i = Some pred /\
           (pred = 1%Z \/
            exists v, label_probability demo_proba i = Some v /\ (0.3 <? v)%float = true)))).
Proof.
  destruct (run_prediction_trigger demo_runtime demo_bundle demo_x demo_proba [0; 1; 0; 0; 0]%Z)
    as (out & Hrun & Hst & _ & Hiff & _).
  - reflexivity.
  - reflexivity.
  - cbn. lia.
  - exists out. repeat split; try assumption.
    + vm_compute in Hrun. inversion Hrun. reflexivity.
    + apply Hiff. assumption.
    + apply Hiff. assumption.
Defined.

(** The length hypothesis of C1 is needed: a prediction row shorter than
    the label set makes [preds[i]] raise, and no list is returned. *)
Example run_prediction_short_row :
  run_prediction demo_runtime
    {| model := {| predict_proba := predict_proba demo_model;
                   predict := fun _ => Ret [1]%Z;
                   tree_shap := tree_shap demo_model |};
       FEATURE_COLS := demo_features; LABEL_COLS := y_cols |} demo_x
  = Raise (Exn IndexError "index 1 is out of bounds for axis 0 with size 1").
Proof.
  reflexivity.
Qed.

(** C8.  Every entry [run_prediction] returns carries at most two reason
    features, each a name of the feature schema, whichever path the
    explainer took. *)
Theorem reason_features_bounded (rt : Runtime) (bundle : Bundle) (x : list float)
    (out : PredictionOutput) (e : Prediction) :
  run_prediction rt bundle x = Ret out ->
  In e (predictions out) ->
  (length (reason_features e) <= 2)%nat /\
  (forall f, In f (reason_features e) -> In f (FEATURE_COLS bundle)).
Proof.
  intros Hrun He.
  destruct (run_prediction_inv _ _ _ _ Hrun) as (proba & preds & Hproba & Hpreds).
  destruct (run_prediction_Ret rt bundle x proba preds out Hproba Hpreds Hrun) as [_ Hin].
  destruct (proj1 (Hin e) He) as (k & l & p & _ & _ & _ & Heq).
  rewrite Heq. cbn [reason_features]. apply explain_shape.
Qed.

(** C8 on the attribution path and on the fallback path. *)
Lemma reason_features_bounded_witness :
  (reason_features (demo_entry demo_bundle "copd" 1 0.8) = ["co2_ppm"; "pm2_5_ugm3"] /\
   (length (reason_features (demo_entry demo_bundle "copd" 1 0.8)) <= 2)%nat /\
   (forall f, In f (reason_features (demo_entry demo_bundle "copd" 1 0.8)) ->
      In f demo_features)) /\
  (reason_features (demo_entry demo_bundle_no_shap "resp_inf" 0 0.35)
   = ["temperature_c"; "co2_ppm"] /\
   (length (reason_features (demo_entry demo_bundle_no_shap "resp_inf" 0 0.35)) <= 2)%nat /\
   (forall f, In f (reason_features (demo_entry demo_bundle_no_shap "resp_inf" 0 0.35)) ->
      In f demo_features)).
Proof.
  split; (split; [reflexivity|]).
  - apply (reason_features_bounded demo_runtime demo_bundle demo_x
             {| status := "ok";
                predictions := [demo_entry demo_bundle "copd" 1 0.8;
                                demo_entry demo_bundle "resp_inf" 0 0.35] |}
             (demo_entry demo_bundle "copd" 1 0.8)).
    + reflexivity.
    + left. reflexivity.
  - apply (reason_features_bounded demo_runtime demo_bundle_no_shap demo_x
             {| status := "ok";
                predictions := [demo_entry demo_bundle_no_shap "copd" 1 0.8;
                                demo_entry demo_bundle_no_shap "resp_inf" 0 0.35] |}
             (demo_entry demo_bundle_no_shap "resp_inf" 0 0.35)).
    + reflexivity.
    + right. left. reflexivity.
Defined.

(** C10.  All entries of one [run_prediction] result carry the same reason
    features, the explainer's answer for the request's feature vector; that
    answer is computed from the first estimator only: it is the same for any
    bundle with the same schema whose estimator 0 attributes alike, whatever
    the other estimators do. *)
Theorem reason_features_shared (rt : Runtime) (bundle : Bundle) (x : list float)
    (out : PredictionOutput) :
  run_prediction rt bundle x = Ret out ->
  (forall e, In e (predictions out) ->
     reason_features e = explain_and_generate_advice rt bundle x) /\
  (forall e1 e2, In e1 (predictions out) -> In e2 (predictions out) ->
     reason_features e1 = reason_features e2) /\
  (forall bundle',
     FEATURE_COLS bundle' = FEATURE_COLS bundle ->
     tree_shap (model bundle') 0 x = tree_shap (model bundle) 0 x ->
     explain_and_generate_advice rt bundle' x = explain_and_generate_advice rt bundle x).
Proof.
  intros Hrun.
  destruct (run_prediction_inv _ _ _ _ Hrun) as (proba & preds & Hproba & Hpreds).
  destruct (run_prediction_Ret rt bundle x proba preds out Hproba Hpreds Hrun) as [_ Hin].
  assert (forall e, In e (predictions out) ->
            reason_features e = explain_and_generate_advice rt bundle x) as Hall.
  { intros e He. destruct (proj1 (Hin e) He) as (k & l & p & _ & _ & _ & Heq).
    rewrite Heq. reflexivity. }
  split; [exact Hall|]. split.
  - intros e1 e2 H1 H2. rewrite (Hall e1 H1), (Hall e2 H2). reflexivity.
  - intros bundle' HF Hshap.
    unfold explain_and_generate_advice, explain_attempt. rewrite HF, Hshap. reflexivity.
Qed.

(** C10 at [demo_bundle]: [copd] (position 1) and [resp_inf] (position 2)
    both carry the ranking of estimator 0. *)
Lemma reason_features_shared_witness :
  (forall e,
     In e [demo_entry demo_bundle "copd" 1 0.8; demo_entry demo_bundle "resp_inf" 0 0.35] ->
     reason_features e = ["co2_ppm"; "pm2_5_ugm3"]) /\
  (forall e1 e2,
     In e1 [demo_entry demo_bundle "copd" 1 0.8; demo_entry demo_bundle "resp_inf" 0 0.35] ->
     In e2 [demo_entry demo_bundle "copd" 1 0.8; demo_entry demo_bundle "resp_inf" 0 0.35] ->
     reason_features e1 = reason_features e2) /\
  (forall bundle',
     FEATURE_COLS bundle' = demo_features ->
     tree_shap (model bundle') 0 demo_x = tree_shap demo_model 0 demo_x ->
     explain_and_generate_advice demo_runtime bundle' demo_x = ["co2_ppm"; "pm2_5_ugm3"]).
Proof.
  apply (reason_features_shared demo_runtime demo_bundle demo_x
           {| status := "ok";
              predictions := [demo_entry demo_bundle "copd" 1 0.8;
                              demo_entry demo_bundle "resp_inf" 0 0.35] |}).
  reflexivity.
Defined.

(** ** The schema resolver *)

Section ResolverFacts.

Variable rt : Runtime.
Variable payload : gmap string PyVal.

Lemma od_get_set {V : Type} (k k' : string) (v : V) (d : list (string * V)) :
  od_get k' (od_set k v d) = if String.eqb k' k then Some v else od_get k' d.
Proof.
  induction d as [|[k0 v0] d IH]; cbn.
  - reflexivity.
  - destruct (String.eqb_spec k k0) as [->|Hk]; cbn.
    + destruct (String.eqb k' k0); reflexivity.
    + rewrite IH. destruct (String.eqb_spec k' k0) as [->|Hk'].
      * destruct (String.eqb_spec k0 k); [congruence|reflexivity].
      * reflexivity.
Qed.

Lemma od_keys_set {V : Type} (k : string) (v : V) (d : list (string * V)) :
  (forall c, In c (od_keys (od_set k v d)) <-> c = k \/ In c (od_keys d)) /\
  (List.NoDup (od_keys d) -> List.NoDup (od_keys (od_set k v d))).
Proof.
  unfold od_keys. induction d as [|[k0 v0] d [IHin IHnd]]; cbn.
  - split.
    + intros c. split; intros [H|[]]; left; congruence.
    + intros _. constructor; [intros []|constructor].
  - destruct (String.eqb_spec k k0) as [->|Hk]; cbn.
    + split; [|trivial]. intros c. split; [intros [H|H]; auto|].
      intros [->|[H|H]]; auto.
    + split.
      * intros c. rewrite IHin. split; intros H; decompose [or] H; auto.
      * intros Hnd. inversion Hnd as [|? ? Hnotin Hnd']; subst.
        constructor; [|apply IHnd, Hnd'].
        rewrite IHin. intros [H|H]; [congruence|contradiction].
Qed.

Lemma build_fold (cols : list string) :
  forall acc,
    (forall c, In c (od_keys (fold_left (resolver_step rt payload) cols acc)) <-> In c (od_keys acc) \/ In c cols) /\
    (List.NoDup (od_keys acc) -> List.NoDup (od_keys (fold_left (resolver_step rt payload) cols acc))) /\
    (forall c, ~ In c cols -> od_get c (fold_left (resolver_step rt payload) cols acc) = od_get c acc) /\
    (forall c, In c cols ->
       od_get c (fold_left (resolver_step rt payload) cols acc) = Some (feature_value rt payload c)).
Proof.
  induction cols as [|c0 cols IH]; intros acc; cbn [fold_left].
  - split; [|split; [|split]].
    + intros c. cbn. tauto.
    + tauto.
    + reflexivity.
    + intros c [].
  - destruct (IH (resolver_step rt payload acc c0)) as (Hin & Hnd & Hout & Hval).
    destruct (od_keys_set c0 (feature_value rt payload c0) acc) as [Kin Knd].
    fold (resolver_step rt payload acc c0) in Kin, Knd.
    split; [|split; [|split]].
    + intros c. split.
      * intros H. apply Hin in H as [H|H]; [|right; right; exact H].
        apply Kin in H as [->|H]; [right; left; reflexivity | left; exact H].
      * intros [H|[<-|H]]; apply Hin.
        -- left. apply Kin. right. exact H.
        -- left. apply Kin. left. reflexivity.
        -- right. exact H.
    + intros H. apply Hnd, Knd, H.
    + intros c Hc. rewrite Hout by (intros H; apply Hc; right; exact H).
      unfold resolver_step. rewrite od_get_set.
      destruct (String.eqb_spec c c0) as [->|_]; [|reflexivity].
      exfalso. apply Hc. left. reflexivity.
    + intros c Hc. destruct (in_dec string_dec c cols) as [Hr|Hr].
      * apply Hval, Hr.
      * rewrite Hout by exact Hr. unfold resolver_step. rewrite od_get_set.
        destruct Hc as [<-|Hc]; [|contradiction].
        rewrite String.eqb_refl. reflexivity.
Qed.

Lemma build_feature_values_fold (bundle : Bundle) :
  build_feature_values rt bundle payload
  = fold_left (resolver_step rt payload) (FEATURE_COLS bundle) [].
Proof.
  reflexivity.
Qed.

Lemma list_comp_od_item (d : list (string * float)) (cols : list string) (f : string -> float) :
  (forall c, In c cols -> od_get c d = Some (f c)) ->
  list_comp (fun c => od_item c d) cols = Ret (map f cols).
Proof.
  induction cols as [|c cols IH]; intros H; cbn.
  - reflexivity.
  - unfold od_item at 1. rewrite (H c) by (left; reflexivity). cbn [bind].
    rewrite IH by (intros c' Hc'; apply H; right; exact Hc'). reflexivity.
Qed.

Lemma first_present_absent (keys : list string) :
  (forall k, In k keys -> payload !! k = None) ->
  first_present payload keys = PyNone.
Proof.
  induction keys as [|k keys IH]; intros H; cbn.
  - reflexivity.
  - rewrite (H k) by (left; reflexivity). apply IH. intros k' Hk'. apply H. right. exact Hk'.
Qed.

Lemma first_present_found (pre post : list string) (k : string) (v : PyVal) :
  (forall k', In k' pre -> payload !! k' = None) ->
  payload !! k = Some v ->
  first_present payload (pre ++ k :: post) = v.
Proof.
  induction pre as [|k0 pre IH]; intros Hpre Hk; cbn.
  - rewrite Hk. reflexivity.
  - rewrite (Hpre k0) by (left; reflexivity).
    apply IH; [|exact Hk]. intros k' Hk'. apply Hpre. right. exact Hk'.
Qed.

(** The second lookup of [build_feature_values] ([payload.get(col, 0.0)]
    when the loop left [None]) never changes the outcome: the stored value
    is the coerced first-present value, or 0.0. *)
Lemma feature_value_first_present (col : string) :
  feature_value rt payload col
  = try_except (py_float rt (first_present payload (candidates col))) (fun _ => 0%float).
Proof.
  unfold feature_value.
  destruct (first_present payload (candidates col)) eqn:E; try reflexivity.
  cbn [is_none]. unfold candidates in E. cbn [app first_present] in E.
  destruct (payload !! col) as [v|] eqn:Hcol.
  - subst v. reflexivity.
  - reflexivity.
Qed.

End ResolverFacts.

(** ** Claims about [build_feature_values] *)

(** C2.  For every record, [build_feature_values] (a total function: every
    raising step inside it is caught) returns a mapping with exactly one
    entry per name of the feature schema, each holding a float; reading it
    back in schema order never fails and gives a row of the schema's length.
    A feature none of whose candidate keys is in the record, or whose found
    value (the value of the first candidate key present) fails [float()],
    is 0.0; for the empty record every feature is 0.0. *)
Theorem build_feature_values_total (rt : Runtime) (bundle : Bundle)
    (payload : gmap string PyVal) :
  List.NoDup (od_keys (build_feature_values rt bundle payload)) /\
  (forall c, In c (od_keys (build_feature_values rt bundle payload))
             <-> In c (FEATURE_COLS bundle)) /\
  (forall c, In c (FEATURE_COLS bundle) ->
     od_get c (build_feature_values rt bundle payload)
     = Some (feature_value rt payload c)) /\
  (exists row,
     feature_row bundle (build_feature_values rt bundle payload) = Ret row /\
     length row = length (FEATURE_COLS bundle)) /\
  (forall c, (forall k, In k (candidates c) -> payload !! k = None) ->
     feature_value rt payload c = 0%float) /\
  (forall c pre k post v e,
     candidates c = (pre ++ k :: post)%list ->
     (forall k', In k' pre -> payload !! k' = None) ->
     payload !! k = Some v ->
     py_float rt v = Raise e ->
     feature_value rt payload c = 0%float) /\
  (forall c, In c (FEATURE_COLS bundle) ->
     od_get c (build_feature_values rt bundle ∅) = Some 0%float).
Proof.
  rewrite !build_feature_values_fold.
  destruct (build_fold rt payload (FEATURE_COLS bundle) []) as (Hin & Hnd & _ & Hval).
  assert (forall p c, (forall k, In k (candidates c) -> p !! k = None) ->
            feature_value rt p c = 0%float) as Habsent.
  { intros p c Hc. rewrite feature_value_first_present, first_present_absent by exact Hc.
    reflexivity. }
  split; [|split; [|split; [|split; [|split; [|split]]]]].
  - apply Hnd. constructor.
  - intros c. rewrite Hin. cbn. tauto.
  - exact Hval.
  - exists (map (feature_value rt payload) (FEATURE_COLS bundle)). split.
    + unfold feature_row. apply list_comp_od_item, Hval.
    + apply length_map.
  - apply Habsent.
  - intros c pre k post v e Hc Hpre Hk He.
    rewrite feature_value_first_present, Hc, (first_present_found _ _ _ _ _ Hpre Hk), He.
    reflexivity.
  - intros c Hc.
    destruct (build_fold rt ∅ (FEATURE_COLS bundle) []) as (_ & _ & _ & Hval0).
    rewrite (Hval0 c Hc). f_equal. apply Habsent. intros k _. apply lookup_empty.
Qed.

(** C2 at a record whose value for [co2] is text: the first three candidates
    of [co2_ppm] are absent, [co2] is found, [float()] raises [ValueError],
    and the feature is 0.0. *)
Lemma build_feature_values_total_witness :
  feature_value demo_runtime (list_to_map [("co2", PyStr "high")]) "co2_ppm" = 0%float.
Proof.
  apply (proj1 (proj2 (proj2 (proj2 (proj2 (proj2
           (build_feature_values_total demo_runtime demo_bundle
              (list_to_map [("co2", PyStr "high")])))))))
           "co2_ppm" ["co2_ppm"; "co2_ppm"; "co2_ppm"] "co2" ["CO2"] (PyStr "high")
           (Exn ValueError "could not convert string to float: 'high'")).
  - reflexivity.
  - intros k' [<-|[<-|[<-|[]]]]; vm_compute; reflexivity.
  - vm_compute. reflexivity.
  - reflexivity.
Defined.

(** A JSON null under the canonical name hides a later alias; text that is
    no number, and an integer beyond the float range, fall back to 0.0. *)
Example build_feature_values_defaults :
  build_feature_values demo_runtime demo_bundle
    (list_to_map [("temperature_c", PyNone); ("temperature", PyInt 35);
                  ("co2", PyStr "high"); ("pm25", PyInt (10 ^ 400))])
  = [("temperature_c", 0%float); ("co2_ppm", 0%float); ("pm2_5_ugm3", 0%float)].
Proof.
  vm_compute. reflexivity.
Qed.

(** ** Lower-casing and substring tests *)

Section TextFacts.








End TextFacts.


(** The training schema resolves the device record through the aliases: the
    rolling and lagged columns read the same keys as their base columns. *)
Example training_schema_row :
  feature_row {| model := demo_model; FEATURE_COLS := X_cols; LABEL_COLS := y_cols |}
    (build_feature_values demo_runtime
       {| model := demo_model; FEATURE_COLS := X_cols; LABEL_COLS := y_cols |}
       device_payload)
  = Ret [1200; 4.5; 80; 0.25; 31.5; 64; 152; 80; 0.25; 80; 0.25]%float.
Proof.
  vm_compute. reflexivity.
Qed.

(** The priority at work: a name matching two patterns gets the aliases of
    the earlier group only. *)
Example candidates_priority :
  candidates "Temp_CO2" = ["Temp_CO2"; "temp_co2"; "temperature"; "temp"; "Temperature"] /\
  candidates "co_pm" = ["co_pm"; "co_pm"; "co_ppm"; "co"; "CO_ppm"; "CO"] /\
  candidates "no2_ppb" = ["no2_ppb"; "no2_ppb"; "no2_ppm"; "no2"; "NO2"] /\
  candidates "pressure" = ["pressure"; "pressure"].
Proof.
  repeat split.
Qed.


(** ** Claims about the advisory lookup *)

(** C6.  The advisory lookup is a total function of the label: no label
    makes it fail.  A label of the template table gets the advice list of
    its template (the table holds the five trained labels); any other label
    gets the empty list, and the template found for it has no title. *)
Theorem advice_lookup_never_fails (lbl : string) :
  (forall t, ADVICE_TEMPLATES !! lbl = Some t ->
     advice t = Some (advice_for lbl) /\ title t = title (template_of lbl) /\
     advice_for lbl <> []) /\
  (ADVICE_TEMPLATES !! lbl = None ->
     advice_for lbl = [] /\ title (template_of lbl) = None) /\
  (ADVICE_TEMPLATES !! lbl = None <-> ~ In lbl y_cols).
Proof.
  split; [|split].
  - intros t Ht. unfold advice_for, template_of. rewrite Ht. cbn [default].
    apply elem_of_list_to_map_2 in Ht.
    repeat (apply elem_of_cons in Ht as [Ht|Ht];
            [inversion Ht; subst; cbn; repeat split; discriminate|]).
    inversion Ht.
  - intros Hn. unfold advice_for, template_of. rewrite Hn. split; reflexivity.
  - split.
    + intros Hn Hin. cbn in Hin.
      repeat (destruct Hin as [<-|Hin]; [vm_compute in Hn; discriminate|]).
      contradiction.
    + intros Hnot. destruct (ADVICE_TEMPLATES !! lbl) as [t|] eqn:Ht; [|reflexivity].
      exfalso. apply Hnot. apply elem_of_list_to_map_2 in Ht.
      repeat (apply elem_of_cons in Ht as [Ht|Ht];
              [inversion Ht; subst; cbn; tauto|]).
      inversion Ht.
Qed.

(** C6 at a known and at an unknown label. *)
Lemma advice_lookup_never_fails_witness :
  (advice_for "unknown_label" = [] /\ title (template_of "unknown_label") = None) /\
  advice_for "copd" =
    ["Avoid outdoor exposure; use face mask outdoors.";
     "Ensure medication adherence; seek medical advice for breathing difficulty."].
Proof.
  split.
  - apply (proj1 (proj2 (advice_lookup_never_fails "unknown_label"))).
    vm_compute. reflexivity.
  - pose proof (proj1 (advice_lookup_never_fails "copd")
                  (template "COPD exacerbation risk"
                     ["Avoid outdoor exposure; use face mask outdoors.";
                      "Ensure medication adherence; seek medical advice for breathing difficulty."])
                  eq_refl) as [H _].
    inversion H. reflexivity.
Defined.

(** ** The ingestion route *)

Section IngestFacts.

Variable rt : Runtime.
Variable bundle : Bundle.
Variable svc : Services.

Lemma feature_row_build (payload : gmap string PyVal) :
  feature_row bundle (build_feature_values rt bundle payload)
  = Ret (map (feature_value rt payload) (FEATURE_COLS bundle)).
Proof.
  unfold feature_row. rewrite build_feature_values_fold.
  apply list_comp_od_item.
  apply (build_fold rt payload (FEATURE_COLS bundle) []).
Qed.

Lemma send_alert_email_events (subject body : string) (to_email : option string) :
  forall ev, In ev (send_alert_email svc subject body to_email) -> is_alert_event ev = true.
Proof.
  intros ev. unfold send_alert_email.
  destruct (negb _); [intros []|].
  destruct (smtp_send svc _); cbn; intros [<-|[]]; reflexivity.
Qed.

(** The two outcomes of the route once the prediction has been computed. *)
Lemma ingest_after_prediction (payload : gmap string PyVal) (out : PredictionOutput) :
  run_prediction rt bundle (map (feature_value rt payload) (FEATURE_COLS bundle)) = Ret out ->
  ingest_from_device rt bundle svc (Ret payload)
  = let fv := build_feature_values rt bundle payload in
    let doc := {| doc_features := fv; doc_predictions := predictions out |} in
    match firestore_set svc (new_document_id svc) doc with
    | Raise e => (ErrorEnvelope (exn_msg e), [StoreFailed (new_document_id svc) doc])
    | Ret _ => (OkEnvelope (new_document_id svc) (predictions out) fv,
                Stored (new_document_id svc) doc :: alert_step rt svc (predictions out) fv)
    end.
Proof.
  intros Hrun. unfold ingest_from_device.
  rewrite feature_row_build. cbn [bind]. rewrite Hrun. reflexivity.
Qed.

End IngestFacts.

(** C7.  Over an empty prediction list the alert step does nothing: no
    body is built and [send_alert_email] is not called; over a non-empty
    list it builds the body and calls [send_alert_email] with it.  In the
    route, a reply with an empty prediction list comes with the store write
    as its only event, and any alert event (the call, a sent or a failed
    mail) comes with a reply that carries at least one prediction. *)
Theorem alert_only_for_active_predictions (rt : Runtime) (bundle : Bundle)
    (svc : Services) (body : pyres (gmap string PyVal)) :
  (forall fv, alert_step rt svc [] fv = []) /\
  (forall p ps fv,
     alert_step rt svc (p :: ps) fv
     = AlertCall "Air Quality Health Risk Alert" (alert_body rt (p :: ps) fv)
       :: send_alert_email svc "Air Quality Health Risk Alert"
            (alert_body rt (p :: ps) fv) None) /\
  (forall id fv,
     fst (ingest_from_device rt bundle svc body) = OkEnvelope id [] fv ->
     snd (ingest_from_device rt bundle svc body)
     = [Stored id {| doc_features := fv; doc_predictions := [] |}]) /\
  (forall ev,
     In ev (snd (ingest_from_device rt bundle svc body)) -> is_alert_event ev = true ->
     exists id p ps fv,
       fst (ingest_from_device rt bundle svc body) = OkEnvelope id (p :: ps) fv).
Proof.
  split; [|split; [|split]].
  - reflexivity.
  - reflexivity.
  - intros id fv. unfold ingest_from_device.
    destruct body as [payload|e]; [|discriminate].
    destruct (bind _ _) as [out|e]; [|discriminate].
    destruct (firestore_set _ _ _); [|discriminate].
    cbn [fst snd]. intros H. inversion H as [[Hid Hp Hfv]]. rewrite Hp. reflexivity.
  - intros ev. unfold ingest_from_device.
    destruct body as [payload|e]; [|intros []].
    destruct (bind _ _) as [out|e]; [|intros []].
    destruct (firestore_set _ _ _); cbn [fst snd].
    + intros [<-|Hin]; [discriminate|]. intros _.
      destruct (predictions out) as [|p ps]; [destruct Hin|].
      eexists _, p, ps, _. reflexivity.
    + intros [<-|[]]. discriminate.
Qed.

(** C7 at a request that flags nothing and at one that flags two labels. *)
Lemma alert_only_for_active_predictions_witness :
  snd (ingest_from_device demo_runtime quiet_bundle demo_services (Ret scenario_payload))
  = [Stored "doc-1"
       {| doc_features := [("temperature_c", 35); ("co2_ppm", 1200); ("pm2_5_ugm3", 80)]%float;
          doc_predictions := [] |}] /\
  exists id p ps fv,
    fst (ingest_from_device demo_runtime demo_bundle demo_services (Ret scenario_payload))
    = OkEnvelope id (p :: ps) fv.
Proof.
  split.
  - apply (proj1 (proj2 (proj2 (alert_only_for_active_predictions
             demo_runtime quiet_bundle demo_services (Ret scenario_payload))))).
    reflexivity.
  - apply (proj2 (proj2 (proj2 (alert_only_for_active_predictions
             demo_runtime demo_bundle demo_services (Ret scenario_payload))))
             (AlertCall "Air Quality Health Risk Alert"
                (alert_body demo_runtime
                   [demo_entry demo_bundle "copd" 1 0.8;
                    demo_entry demo_bundle "resp_inf" 0 0.35]
                   [("temperature_c", 35); ("co2_ppm", 1200); ("pm2_5_ugm3", 80)]%float))).
    + right. left. reflexivity.
    + reflexivity.
Defined.

(** C3, as stated, fails: the scenario request computes two predictions,
    the store write then raises, and the route answers with the error
    envelope (status 500), which carries no prediction. *)
Lemma ingest_store_failure_counterexample :
  run_prediction demo_runtime demo_bundle demo_x
  = Ret {| status := "ok"; predictions := demo_predictions |} /\
  map (feature_value demo_runtime scenario_payload) demo_features = demo_x /\
  firestore_set demo_services_store_down "doc-1" demo_document
  = Raise (Exn OtherError "503 The service is currently unavailable.") /\
  ingest_from_device demo_runtime demo_bundle demo_services_store_down (Ret scenario_payload)
  = (ErrorEnvelope "503 The service is currently unavailable.",
     [StoreFailed "doc-1" demo_document]) /\
  http_status (ErrorEnvelope "503 The service is currently unavailable.") = 500%Z.
Proof.
  repeat split.
Qed.

(** C3, amended.  Once the prediction is computed, a store write that
    raises makes the route answer with the error envelope holding the
    exception's message, without the predictions and without an alert; a
    store write that returns makes it answer with the computed predictions,
    whatever [send_alert_email] then meets (its SMTP failure is caught
    inside and only shows as a [MailFailed] event). *)
Theorem ingest_store_failure_is_an_error (rt : Runtime) (bundle : Bundle)
    (svc : Services) (payload : gmap string PyVal) (out : PredictionOutput) :
  run_prediction rt bundle (map (feature_value rt payload) (FEATURE_COLS bundle)) = Ret out ->
  (forall e,
     firestore_set svc (new_document_id svc)
       {| doc_features := build_feature_values rt bundle payload;
          doc_predictions := predictions out |} = Raise e ->
     ingest_from_device rt bundle svc (Ret payload)
     = (ErrorEnvelope (exn_msg e),
        [StoreFailed (new_document_id svc)
           {| doc_features := build_feature_values rt bundle payload;
              doc_predictions := predictions out |}])) /\
  (forall u,
     firestore_set svc (new_document_id svc)
       {| doc_features := build_feature_values rt bundle payload;
          doc_predictions := predictions out |} = Ret u ->
     fst (ingest_from_device rt bundle svc (Ret payload))
     = OkEnvelope (new_document_id svc) (predictions out)
         (build_feature_values rt bundle payload) /\
     forall ev, In ev (snd (ingest_from_device rt bundle svc (Ret payload))) ->
       ev = Stored (new_document_id svc)
              {| doc_features := build_feature_values rt bundle payload;
                 doc_predictions := predictions out |}
       \/ is_alert_event ev = true).
Proof.
  intros Hrun. rewrite (ingest_after_prediction rt bundle svc payload out Hrun). cbn zeta.
  split.
  - intros e He. rewrite He. reflexivity.
  - intros u Hu. rewrite Hu. cbn [fst snd]. split; [reflexivity|].
    intros ev [<-|Hin]; [left; reflexivity|right].
    unfold alert_step in Hin. destruct (predictions out) as [|p ps]; [destruct Hin|].
    destruct Hin as [<-|Hin]; [reflexivity|].
    eapply send_alert_email_events, Hin.
Qed.

(** C3, amended, at the scenario request: the store down, and the SMTP
    server down. *)
Lemma ingest_store_failure_is_an_error_witness :
  ingest_from_device demo_runtime demo_bundle demo_services_store_down (Ret scenario_payload)
  = (ErrorEnvelope "503 The service is currently unavailable.",
     [StoreFailed "doc-1" demo_document]) /\
  fst (ingest_from_device demo_runtime demo_bundle demo_services_smtp_down (Ret scenario_payload))
  = OkEnvelope "doc-1" demo_predictions demo_feature_values.
Proof.
  split.
  - apply (proj1 (ingest_store_failure_is_an_error demo_runtime demo_bundle
                    demo_services_store_down scenario_payload
                    {| status := "ok"; predictions := demo_predictions |} eq_refl)
             (Exn OtherError "503 The service is currently unavailable.")).
    reflexivity.
  - apply (proj2 (ingest_store_failure_is_an_error demo_runtime demo_bundle
                    demo_services_smtp_down scenario_payload
                    {| status := "ok"; predictions := demo_predictions |} eq_refl) tt).
    reflexivity.
Defined.

(** A failed SMTP session leaves its trace after the store write and the
    alert call. *)
Example ingest_smtp_failure_events :
  map is_alert_event
    (snd (ingest_from_device demo_runtime demo_bundle demo_services_smtp_down
            (Ret scenario_payload)))
  = [false; true; true] /\
  exists msg,
    last (snd (ingest_from_device demo_runtime demo_bundle demo_services_smtp_down
                 (Ret scenario_payload))) = Some (MailFailed msg).
Proof.
  split; [reflexivity|]. eexists. reflexivity.
Qed.

(** ** The alert text *)

Lemma round_half_even_nearest (num den : Z) :
  (0 < den)%Z ->
  (2 * Z.abs (num - round_half_even num den * den) <= den)%Z /\
  ((2 * Z.abs (num - round_half_even num den * den) = den)%Z ->
   Z.even (round_half_even num den) = true).
Proof.
  intros Hden. unfold round_half_even.
  pose proof (Z.div_mod num den ltac:(lia)) as Hdm.
  pose proof (Z.mod_pos_bound num den Hden) as Hr.
  set (q := (num / den)%Z) in *. set (r := (num mod den)%Z) in *.
  destruct (Z.compare_spec (2 * r) den) as [He|Hl|Hg].
  - destruct (Z.even q) eqn:Hq.
    + split; [lia|intros _; exact Hq].
    + split; [lia|intros _].
      rewrite Z.add_1_r, Z.even_succ, <- Z.negb_even, Hq. reflexivity.
  - split; lia.
  - split; lia.
Qed.

Lemma two_digits_shape (n : Z) :
  (0 <= n < 100)%Z ->
  two_digits n = String (digit_char (n / 10)) (String (digit_char (n mod 10)) "").
Proof.
  intros Hn. rewrite <- (Z2Nat.id n) by lia.
  assert (Z.to_nat n < 100)%nat as Hk by lia.
  generalize dependent (Z.to_nat n). clear Hn. intros k Hk.
  do 100 (destruct k as [|k]; [vm_compute; reflexivity|]). lia.
Qed.

Lemma hundredths_nonneg (m : positive) (e : Z) : (0 <= hundredths m e)%Z.
Proof.
  unfold hundredths. destruct (0 <=? e)%Z eqn:He.
  - apply Z.leb_le in He. pose proof (Z.pow_nonneg 2 e ltac:(lia)). nia.
  - apply Z.leb_gt in He.
    assert (0 < 2 ^ (- e))%Z as Hd by (apply Z.pow_pos_nonneg; lia).
    unfold round_half_even.
    pose proof (Z.div_pos (Z.pos m * 100) (2 ^ (- e)) ltac:(lia) Hd).
    destruct (_ ?= _)%Z; [destruct (Z.even _)|..]; lia.
Qed.

(** *** Lines of a text *)

Section LineFacts.

Lemma append_assoc (a b c : string) : (a ++ b) ++ c = a ++ b ++ c.
Proof.
  induction a as [|x a IH]; [reflexivity|].
  change (String x ((a ++ b) ++ c) = String x (a ++ b ++ c)). rewrite IH. reflexivity.
Qed.

Lemma one_line_app (a b : string) : one_line (a ++ b) = one_line a && one_line b.
Proof.
  induction a as [|x a IH]; [reflexivity|].
  change (String x a ++ b) with (String x (a ++ b)).
  cbn [one_line]. rewrite IH. apply andb_assoc.
Qed.

(** A line, a newline and a text: the line and then the lines of the text. *)
Lemma split_lines_app (a b : string) :
  one_line a = true -> split_lines (a ++ nl ++ b) = a :: split_lines b.
Proof.
  induction a as [|x a IH]; intros Ha.
  - reflexivity.
  - cbn [one_line] in Ha. apply andb_true_iff in Ha as [Hx Ha].
    apply negb_true_iff in Hx.
    change (String x a ++ nl ++ b) with (String x (a ++ nl ++ b)).
    cbn [split_lines]. rewrite Hx, (IH Ha). reflexivity.
Qed.

Lemma split_lines_nl (b : string) : split_lines (nl ++ b) = "" :: split_lines b.
Proof.
  reflexivity.
Qed.

Lemma split_lines_one_line (a : string) :
  one_line a = true -> split_lines a = [a].
Proof.
  induction a as [|x a IH]; intros Ha; [reflexivity|].
  cbn [one_line] in Ha. apply andb_true_iff in Ha as [Hx Ha].
  apply negb_true_iff in Hx. cbn [split_lines]. rewrite Hx, (IH Ha). reflexivity.
Qed.

(** Lines joined by newlines and followed by a newline and a text. *)
Lemma split_lines_join_app (l : string) (ls : list string) (rest : string) :
  Forall (fun a => one_line a = true) (l :: ls) ->
  split_lines (join nl (l :: ls) ++ nl ++ rest) = ((l :: ls) ++ split_lines rest)%list.
Proof.
  revert l. induction ls as [|l2 ls IH]; intros l Hall.
  - apply Forall_inv in Hall. cbn [join]. apply split_lines_app, Hall.
  - change (join nl (l :: l2 :: ls)) with (l ++ nl ++ join nl (l2 :: ls)).
    rewrite !append_assoc.
    rewrite split_lines_app by (apply Forall_inv in Hall; exact Hall).
    rewrite IH by (apply Forall_inv_tail in Hall; exact Hall). reflexivity.
Qed.

Lemma split_lines_join (l : string) (ls : list string) :
  Forall (fun a => one_line a = true) (l :: ls) ->
  split_lines (join nl (l :: ls)) = l :: ls.
Proof.
  revert l. induction ls as [|l2 ls IH]; intros l Hall.
  - apply Forall_inv in Hall. cbn [join]. apply split_lines_one_line, Hall.
  - change (join nl (l :: l2 :: ls)) with (l ++ nl ++ join nl (l2 :: ls)).
    rewrite split_lines_app by (apply Forall_inv in Hall; exact Hall).
    rewrite IH by (apply Forall_inv_tail in Hall; exact Hall). reflexivity.
Qed.

Lemma string_of_uint_one_line (d : Decimal.uint) :
  one_line (NilZero.string_of_uint d) = true.
Proof.
  assert (one_line (NilEmpty.string_of_uint d) = true) as H
    by (induction d; cbn; auto).
  destruct d; [reflexivity|exact H..].
Qed.

Lemma format_2f_one_line (x : float) : one_line (format_2f x) = true.
Proof.
  unfold format_2f, two_digits, decimal.
  destruct (Prim2SF x) as [s|s| |s m e];
    [destruct s; reflexivity|destruct s; reflexivity|reflexivity|].
  rewrite !one_line_app, string_of_uint_one_line.
  destruct (_ <? 10)%Z; rewrite ?one_line_app, string_of_uint_one_line;
    destruct s; reflexivity.
Qed.

(** The line of a prediction whose label holds no newline is one line. *)
Lemma alert_line_one_line (p : Prediction) :
  one_line (label p) = true -> one_line (alert_line p) = true.
Proof.
  intros Hl. unfold alert_line. rewrite !one_line_app, Hl.
  destruct (probability p); [rewrite format_2f_one_line|]; reflexivity.
Qed.

(** The lines of the alert body up to the features. *)
Lemma alert_body_lines (rt : Runtime) (p : Prediction) (ps : list Prediction)
    (fv : list (string * float)) :
  (forall q, In q (p :: ps) -> one_line (label q) = true) ->
  split_lines (alert_body rt (p :: ps) fv)
  = ([alert_heading; ""] ++ map alert_line (p :: ps) ++ [""; "Features:"]
     ++ split_lines (join nl (map (feature_line rt) fv)))%list.
Proof.
  intros Hl. unfold alert_body.
  fold alert_heading.
  rewrite (split_lines_app alert_heading) by reflexivity.
  rewrite split_lines_nl.
  change (map alert_line (p :: ps)) with (alert_line p :: map alert_line ps).
  rewrite split_lines_join_app.
  2:{ apply Forall_forall. intros a Ha. apply list_elem_of_In in Ha.
      change (alert_line p :: map alert_line ps) with (map alert_line (p :: ps)) in Ha.
      apply in_map_iff in Ha as (q & <- & Hq). apply alert_line_one_line, Hl, Hq. }
  rewrite split_lines_nl.
  rewrite (split_lines_app "Features:") by reflexivity.
  reflexivity.
Qed.

End LineFacts.

(** C9.  In the alert body every prediction is rendered as one line: for
    predictions whose labels hold no newline, the lines of the body are the
    heading, an empty line, then the line ["- <label> (probability: <p>)"]
    of each prediction in order, an empty line, [Features:] and the feature
    lines.  An absent probability is written [N/A]; a present one is written
    by [f"{prob:.2f}"]: for a finite float, a minus sign when it is
    negative, the integer part as a decimal numeral, a point and exactly two
    digits, the number of hundredths being the exact binary value times 100
    rounded to the nearest integer, ties to even.  So 0.2567 is written
    [0.26]. *)
Theorem alert_line_format (rt : Runtime) :
  (forall p, exists prob_str,
     alert_line p = "- " ++ label p ++ " (probability: " ++ prob_str ++ ")" /\
     match probability p with
     | Some x => prob_str = format_2f x
     | None => prob_str = "N/A"
     end) /\
  (forall x s m e, Prim2SF x = S754_finite s m e ->
     (exists int_part,
        format_2f x
        = (if s then "-" else "") ++ int_part ++ "."
          ++ String (digit_char ((hundredths m e mod 100) / 10))
               (String (digit_char ((hundredths m e mod 100) mod 10)) "") /\
        NilZero.uint_of_string int_part = Some (N.to_uint (Z.to_N (hundredths m e / 100)))) /\
     (0 <= hundredths m e)%Z /\
     ((0 <= e)%Z -> hundredths m e = (Z.pos m * 2 ^ e * 100)%Z) /\
     ((e < 0)%Z ->
      (2 * Z.abs (Z.pos m * 100 - hundredths m e * 2 ^ (- e)) <= 2 ^ (- e))%Z /\
      ((2 * Z.abs (Z.pos m * 100 - hundredths m e * 2 ^ (- e)) = 2 ^ (- e))%Z ->
       Z.even (hundredths m e) = true))) /\
  (forall p ps fv,
     (forall q, In q (p :: ps) -> one_line (label q) = true) ->
     split_lines (alert_body rt (p :: ps) fv)
     = ([alert_heading; ""] ++ map alert_line (p :: ps) ++ [""; "Features:"]
        ++ split_lines (join nl (map (feature_line rt) fv)))%list /\
     Forall (fun l => one_line l = true) (map alert_line (p :: ps))) /\
  (forall p ps kv fv,
     (forall q, In q (p :: ps) -> one_line (label q) = true) ->
     (forall kv', In kv' (kv :: fv) -> one_line (feature_line rt kv') = true) ->
     split_lines (alert_body rt (p :: ps) (kv :: fv))
     = ([alert_heading; ""] ++ map alert_line (p :: ps) ++ [""; "Features:"]
        ++ map (feature_line rt) (kv :: fv))%list) /\
  format_2f 0.2567 = "0.26" /\
  format_2f (-1.005) = "-1.00" /\
  alert_line (demo_entry demo_bundle "copd" 1 0.2567) = "- copd (probability: 0.26)" /\
  alert_line {| label := "copd"; predicted := 1; probability := None;
                reason_features := []; p_advice := [] |}
  = "- copd (probability: N/A)" /\
  alert_body scenario_runtime demo_predictions demo_feature_values
  = "The air-quality ML model detected potential health risks:" ++ nl ++ nl
    ++ "- copd (probability: 0.80)" ++ nl
    ++ "- resp_inf (probability: 0.35)" ++ nl ++ nl
    ++ "Features:" ++ nl
    ++ "temperature_c: 35.0" ++ nl ++ "co2_ppm: 1200.0" ++ nl ++ "pm2_5_ugm3: 80.0".
Proof.
  split; [|split; [|split; [|split]]].
  - intros p. unfold alert_line. destruct (probability p) as [x|]; eexists; split; reflexivity.
  - intros x s m e Hx. unfold format_2f. rewrite Hx. split; [|split; [|split]].
    + exists (decimal (hundredths m e / 100)). split.
      * rewrite two_digits_shape by (apply Z.mod_pos_bound; lia).
        destruct s; reflexivity.
      * unfold decimal. apply NilZero.usu.
        destruct (Z.to_N (hundredths m e / 100)) as [|q]; [discriminate|].
        apply Unsigned.to_uint_nonnil.
    + apply hundredths_nonneg.
    + intros He. unfold hundredths. apply Z.leb_le in He. rewrite He. reflexivity.
    + intros He. unfold hundredths.
      assert ((0 <=? e)%Z = false) as -> by (apply Z.leb_gt; exact He).
      apply round_half_even_nearest. apply Z.pow_pos_nonneg; lia.
  - intros p ps fv Hl. split; [apply alert_body_lines, Hl|].
    apply Forall_forall. intros l Hin. apply list_elem_of_In, in_map_iff in Hin as (q & <- & Hq).
    apply alert_line_one_line, Hl, Hq.
  - intros p ps kv fv Hl Hf. rewrite (alert_body_lines rt p ps (kv :: fv) Hl).
    do 3 f_equal.
    change (map (feature_line rt) (kv :: fv))
      with (feature_line rt kv :: map (feature_line rt) fv).
    apply split_lines_join. apply Forall_forall. intros a Ha.
    apply list_elem_of_In in Ha.
    change (feature_line rt kv :: map (feature_line rt) fv)
      with (map (feature_line rt) (kv :: fv)) in Ha.
    apply in_map_iff in Ha as (kv' & <- & Hkv). apply Hf, Hkv.
  - repeat split; vm_compute; reflexivity.
Qed.

(** C9 at 0.2567, whose binary value is 4624296097384025 * 2^-54: 26
    hundredths, the nearest to 25.67; and at the alert of the scenario
    request, with its two predictions on the third and fourth line. *)
Lemma alert_line_format_witness :
  ((exists int_part,
      format_2f 0.2567
      = "" ++ int_part ++ "."
        ++ String (digit_char ((26 mod 100) / 10))
             (String (digit_char ((26 mod 100) mod 10)) "") /\
      NilZero.uint_of_string int_part = Some (N.to_uint (Z.to_N (26 / 100)))) /\
   (0 <= 26)%Z /\
   ((0 <= -54)%Z -> 26%Z = (4624296097384025 * 2 ^ (-54) * 100)%Z) /\
   ((-54 < 0)%Z ->
    (2 * Z.abs (4624296097384025 * 100 - 26 * 2 ^ (- -54)) <= 2 ^ (- -54))%Z /\
    ((2 * Z.abs (4624296097384025 * 100 - 26 * 2 ^ (- -54)) = 2 ^ (- -54))%Z ->
     Z.even 26 = true))) /\
  split_lines (alert_body scenario_runtime demo_predictions demo_feature_values)
  = ["The air-quality ML model detected potential health risks:"; "";
     "- copd (probability: 0.80)"; "- resp_inf (probability: 0.35)"; "";
     "Features:"; "temperature_c: 35.0"; "co2_ppm: 1200.0"; "pm2_5_ugm3: 80.0"].
Proof.
  split.
  - apply (proj1 (proj2 (alert_line_format demo_runtime))
             0.2567%float false 4624296097384025%positive (-54)%Z).
    vm_compute. reflexivity.
  - apply (proj1 (proj2 (proj2 (proj2 (alert_line_format scenario_runtime))))
             (demo_entry demo_bundle "copd" 1 0.8) [demo_entry demo_bundle "resp_inf" 0 0.35]
             ("temperature_c", 35%float) [("co2_ppm", 1200%float); ("pm2_5_ugm3", 80%float)]).
    + intros q [<-|[<-|[]]]; reflexivity.
    + intros kv' [<-|[<-|[<-|[]]]]; vm_compute; reflexivity.
Defined.

(** [format_2f] on values checked against CPython: ties of the exact binary
    value go to the even neighbour, and decimal literals that are no binary
    fractions are rounded by their binary value. *)
Example format_2f_samples :
  map format_2f [0.125; 0.375; 2.675; 0.995; 1; -0.001; 123456.789; nan; infinity]%float
  = ["0.12"; "0.38"; "2.67"; "0.99"; "1.00"; "-0.00"; "123456.79"; "nan"; "inf"].
Proof.
  vm_compute. reflexivity.
Qed.

(** * Further properties of the service *)

(** ** [run_prediction]: order, bounds and content of the result *)

Section PredictionOrder.

Variable rt : Runtime.
Variable bundle : Bundle.
Variable x : list float.
Variable proba : ProbaOut.
Variable preds : list Z.

Lemma prediction_loop_sublist (labels : list string) :
  forall i acc result,
    prediction_loop rt bundle x proba preds i labels acc = Ret result ->
    exists new, result = (acc ++ new)%list /\ sublist (map label new) labels.
Proof.
  induction labels as [|lbl labels IH]; intros i acc result H; cbn in H.
  - inversion H; subst. exists []. rewrite app_nil_r. split; [reflexivity|constructor].
  - unfold Np.item in H. destruct (nth_error preds i) as [pred|]; cbn [bind] in H;
      [|discriminate].
    destruct (triggered pred (label_probability proba i)).
    + apply IH in H as (new & -> & Hsub). eexists (_ :: new). split.
      * rewrite <- app_assoc. reflexivity.
      * cbn. constructor. exact Hsub.
    + apply IH in H as (new & -> & Hsub). exists new. split; [reflexivity|].
      constructor. exact Hsub.
Qed.

(** The loop stops at the first position beyond the prediction row, with
    the exception NumPy raises for it. *)
Lemma prediction_loop_short (labels : list string) :
  forall i acc,
    (i <= length preds)%nat -> (length preds < i + length labels)%nat ->
    prediction_loop rt bundle x proba preds i labels acc
    = Raise (Exn IndexError
               ("index " ++ str_of_nat (length preds)
                ++ " is out of bounds for axis 0 with size " ++ str_of_nat (length preds))).
Proof.
  induction labels as [|lbl labels IH]; intros i acc Hle Hlt; cbn [length] in Hlt.
  - lia.
  - cbn [prediction_loop]. unfold Np.item.
    destruct (nth_error preds i) as [pred|] eqn:Hp; cbn [bind].
    + apply nth_error_lt in Hp. destruct (triggered _ _); apply IH; lia.
    + apply nth_error_None in Hp. replace i with (length preds) by lia. reflexivity.
Qed.

End PredictionOrder.

(** X1.  The entries of a [run_prediction] result follow the order of the
    label set: their labels are a subsequence of [LABEL_COLS].  So there are
    at most as many entries as labels, and no label is reported twice when
    the label set has no repetition. *)
Theorem run_prediction_label_order (rt : Runtime) (bundle : Bundle) (x : list float)
    (out : PredictionOutput) :
  run_prediction rt bundle x = Ret out ->
  sublist (map label (predictions out)) (LABEL_COLS bundle) /\
  (length (predictions out) <= length (LABEL_COLS bundle))%nat /\
  (List.NoDup (LABEL_COLS bundle) -> List.NoDup (map label (predictions out))).
Proof.
  intros Hrun. unfold run_prediction in Hrun.
  destruct (predict_proba (model bundle) x) as [proba|]; [|discriminate Hrun].
  destruct (predict (model bundle) x) as [preds|]; [|discriminate Hrun].
  cbn [bind] in Hrun.
  destruct (prediction_loop rt bundle x proba preds 0 (LABEL_COLS bundle) []) as [result|] eqn:E;
    [|discriminate Hrun].
  cbn [bind] in Hrun. inversion Hrun; subst out. cbn [predictions].
  apply prediction_loop_sublist in E as (new & -> & Hsub). cbn [app].
  split; [exact Hsub|]. split.
  - rewrite <- (length_map label new). apply sublist_length, Hsub.
  - intros Hnd. apply NoDup_ListNoDup. apply NoDup_ListNoDup in Hnd.
    eapply sublist_NoDup; eassumption.
Qed.

(** X1 at [demo_bundle]. *)
Lemma run_prediction_label_order_witness :
  sublist ["copd"; "resp_inf"] y_cols /\
  (length demo_predictions <= length y_cols)%nat /\
  (List.NoDup y_cols -> List.NoDup ["copd"; "resp_inf"]).
Proof.
  apply (run_prediction_label_order demo_runtime demo_bundle demo_x
           {| status := "ok"; predictions := demo_predictions |}).
  reflexivity.
Defined.

(** X2.  When the model answers with a prediction row shorter than the label
    set, [run_prediction] raises the [IndexError] of NumPy at the first
    label without a prediction, whatever the earlier labels gave: no partial
    list is returned.  The message, which the routes return in their error
    envelope, names that position and the length of the row; for a row of
    four predictions it reads [index 4 is out of bounds for axis 0 with
    size 4]. *)
Theorem run_prediction_short_row_raises (rt : Runtime) (bundle : Bundle) (x : list float)
    (proba : ProbaOut) (preds : list Z) :
  predict_proba (model bundle) x = Ret proba ->
  predict (model bundle) x = Ret preds ->
  (length preds < length (LABEL_COLS bundle))%nat ->
  run_prediction rt bundle x
  = Raise (Exn IndexError
             ("index " ++ NilZero.string_of_uint (Nat.to_uint (length preds))
              ++ " is out of bounds for axis 0 with size "
              ++ NilZero.string_of_uint (Nat.to_uint (length preds)))) /\
  (length preds = 4%nat ->
   run_prediction rt bundle x
   = Raise (Exn IndexError "index 4 is out of bounds for axis 0 with size 4")) /\
  (forall body,
     feature_row bundle (build_feature_values rt bundle body) = Ret x ->
     predict_disease rt bundle (Ret body)
     = PredictError
         ("index " ++ NilZero.string_of_uint (Nat.to_uint (length preds))
          ++ " is out of bounds for axis 0 with size "
          ++ NilZero.string_of_uint (Nat.to_uint (length preds)))).
Proof.
  intros Hproba Hpreds Hlen.
  assert (run_prediction rt bundle x
          = Raise (Exn IndexError
                     ("index " ++ NilZero.string_of_uint (Nat.to_uint (length preds))
                      ++ " is out of bounds for axis 0 with size "
                      ++ NilZero.string_of_uint (Nat.to_uint (length preds))))) as Hrun.
  { unfold run_prediction. rewrite Hproba, Hpreds. cbn [bind].
    rewrite prediction_loop_short by (cbn; lia). reflexivity. }
  split; [exact Hrun|]. split.
  - intros H4. rewrite Hrun, H4. reflexivity.
  - intros body Hrow. unfold predict_disease. rewrite Hrow. cbn [bind].
    rewrite Hrun. reflexivity.
Qed.

(** X2 at a row of four predictions for five labels. *)
Lemma run_prediction_short_row_raises_witness :
  run_prediction demo_runtime short_row_bundle demo_x
  = Raise (Exn IndexError "index 4 is out of bounds for axis 0 with size 4") /\
  predict_disease demo_runtime short_row_bundle (Ret scenario_payload)
  = PredictError "index 4 is out of bounds for axis 0 with size 4".
Proof.
  destruct (run_prediction_short_row_raises demo_runtime short_row_bundle demo_x demo_proba
              [0; 1; 0; 0]%Z) as (_ & H4 & Hroute).
  - reflexivity.
  - reflexivity.
  - cbn. lia.
  - split; [apply H4; reflexivity|]. apply (Hroute scenario_payload). reflexivity.
Defined.

(** X3.  Every entry of a [run_prediction] result is justified and complete:
    its label is a label of the label set, its prediction is 1 or it holds a
    probability strictly greater than 0.3, and its advice is the advice of
    its label's template. *)
Theorem run_prediction_entries_justified (rt : Runtime) (bundle : Bundle) (x : list float)
    (out : PredictionOutput) (e : Prediction) :
  run_prediction rt bundle x = Ret out ->
  In e (predictions out) ->
  In (label e) (LABEL_COLS bundle) /\
  (predicted e = 1%Z \/
   exists v, probability e = Some v /\ (0.3 <? v)%float = true) /\
  p_advice e = advice_for (label e).
Proof.
  intros Hrun He.
  destruct (run_prediction_inv _ _ _ _ Hrun) as (proba & preds & Hproba & Hpreds).
  destruct (run_prediction_Ret rt bundle x proba preds out Hproba Hpreds Hrun) as [_ Hin].
  destruct (proj1 (Hin e) He) as (k & l & p & Hk & _ & Ht & Heq).
  rewrite Heq. cbn [label predicted probability p_advice loop_entry].
  split; [eapply nth_error_In, Hk|]. split; [|reflexivity].
  unfold triggered in Ht. apply orb_true_iff in Ht as [Ht|Ht].
  - left. apply Z.eqb_eq, Ht.
  - right. destruct (label_probability proba (0 + k)) as [v|]; [|discriminate].
    exists v. split; [reflexivity|exact Ht].
Qed.

(** X3 at the entry of [resp_inf], reported for its probability alone. *)
Lemma run_prediction_entries_justified_witness :
  In (label (demo_entry demo_bundle "resp_inf" 0 0.35)) y_cols /\
  (predicted (demo_entry demo_bundle "resp_inf" 0 0.35) = 1%Z \/
   exists v, probability (demo_entry demo_bundle "resp_inf" 0 0.35) = Some v /\
             (0.3 <? v)%float = true) /\
  p_advice (demo_entry demo_bundle "resp_inf" 0 0.35)
  = advice_for (label (demo_entry demo_bundle "resp_inf" 0 0.35)).
Proof.
  apply (run_prediction_entries_justified demo_runtime demo_bundle demo_x
           {| status := "ok"; predictions := demo_predictions |}
           (demo_entry demo_bundle "resp_inf" 0 0.35)).
  - reflexivity.
  - right. left. reflexivity.
Defined.

(** ** [build_feature_values]: order, irrelevant keys, round trip, aliases *)

Section ResolverOrder.

Variable rt : Runtime.

Lemma od_set_fresh {V : Type} (k : string) (v : V) (d : list (string * V)) :
  ~ In k (od_keys d) -> od_set k v d = (d ++ [(k, v)])%list.
Proof.
  induction d as [|[k0 v0] d IH]; cbn; intros Hk.
  - reflexivity.
  - destruct (String.eqb_spec k k0) as [->|_].
    + exfalso. apply Hk. left. reflexivity.
    + rewrite IH; [reflexivity|]. intros H. apply Hk. right. exact H.
Qed.

Lemma build_fold_nodup (payload : gmap string PyVal) (cols : list string) :
  forall acc,
    List.NoDup cols -> (forall c, In c cols -> ~ In c (od_keys acc)) ->
    fold_left (resolver_step rt payload) cols acc
    = (acc ++ map (fun c => (c, feature_value rt payload c)) cols)%list.
Proof.
  induction cols as [|c cols IH]; intros acc Hnd Hfresh; cbn [fold_left map].
  - rewrite app_nil_r. reflexivity.
  - inversion Hnd as [|? ? Hc Hnd']; subst.
    unfold resolver_step at 2. rewrite od_set_fresh by (apply Hfresh; left; reflexivity).
    rewrite IH; [rewrite <- app_assoc; reflexivity | exact Hnd' |].
    intros c' Hc' Hin. unfold od_keys in Hin. rewrite map_app, in_app_iff in Hin.
    destruct Hin as [Hin|[<-|[]]].
    + apply (Hfresh c'); [right; exact Hc'|exact Hin].
    + contradiction.
Qed.

Lemma build_fold_ext (p1 p2 : gmap string PyVal) (cols : list string) :
  forall acc,
    (forall c, In c cols -> feature_value rt p1 c = feature_value rt p2 c) ->
    fold_left (resolver_step rt p1) cols acc = fold_left (resolver_step rt p2) cols acc.
Proof.
  induction cols as [|c cols IH]; intros acc H; cbn [fold_left].
  - reflexivity.
  - unfold resolver_step at 2 4. rewrite (H c) by (left; reflexivity).
    apply IH. intros c' Hc'. apply H. right. exact Hc'.
Qed.

Lemma first_present_ext (p1 p2 : gmap string PyVal) (keys : list string) :
  (forall k, In k keys -> p1 !! k = p2 !! k) ->
  first_present p1 keys = first_present p2 keys.
Proof.
  induction keys as [|k keys IH]; intros H; cbn.
  - reflexivity.
  - rewrite (H k) by (left; reflexivity). destruct (p2 !! k); [reflexivity|].
    apply IH. intros k' Hk'. apply H. right. exact Hk'.
Qed.

Lemma feature_value_ext (p1 p2 : gmap string PyVal) (col : string) :
  (forall k, In k (candidates col) -> p1 !! k = p2 !! k) ->
  feature_value rt p1 col = feature_value rt p2 col.
Proof.
  intros H. rewrite !feature_value_first_present, (first_present_ext p1 p2 _ H).
  reflexivity.
Qed.

End ResolverOrder.

(** X4.  For a schema without repeated names the keys of the built mapping
    are the schema names in schema order, and its values in that order are
    the row handed to the model: what the reply lists under [features] and
    what the alert enumerates is the model's input, position by position. *)
Theorem build_feature_values_schema_order (rt : Runtime) (bundle : Bundle)
    (payload : gmap string PyVal) :
  List.NoDup (FEATURE_COLS bundle) ->
  od_keys (build_feature_values rt bundle payload) = FEATURE_COLS bundle /\
  feature_row bundle (build_feature_values rt bundle payload)
  = Ret (map snd (build_feature_values rt bundle payload)).
Proof.
  intros Hnd. rewrite feature_row_build, build_feature_values_fold.
  rewrite build_fold_nodup by (auto; intros c _ []). cbn [app].
  unfold od_keys. rewrite !map_map. cbn [fst snd]. split; [apply map_id|reflexivity].
Qed.

(** X4 at the training schema and the device record. *)
Lemma build_feature_values_schema_order_witness :
  od_keys (build_feature_values demo_runtime
             {| model := demo_model; FEATURE_COLS := X_cols; LABEL_COLS := y_cols |}
             device_payload) = X_cols /\
  feature_row {| model := demo_model; FEATURE_COLS := X_cols; LABEL_COLS := y_cols |}
    (build_feature_values demo_runtime
       {| model := demo_model; FEATURE_COLS := X_cols; LABEL_COLS := y_cols |}
       device_payload)
  = Ret (map snd
           (build_feature_values demo_runtime
              {| model := demo_model; FEATURE_COLS := X_cols; LABEL_COLS := y_cols |}
              device_payload)).
Proof.
  apply (build_feature_values_schema_order demo_runtime
           {| model := demo_model; FEATURE_COLS := X_cols; LABEL_COLS := y_cols |}
           device_payload).
  cbn. repeat (constructor; [cbn; intuition discriminate|]). constructor.
Defined.

(** X5.  Only candidate keys are ever read: two records that agree on the
    candidate keys of every schema feature build the same mapping, whatever
    other keys and values they hold. *)
Theorem build_feature_values_ignores_other_keys (rt : Runtime) (bundle : Bundle)
    (p1 p2 : gmap string PyVal) :
  (forall c k, In c (FEATURE_COLS bundle) -> In k (candidates c) -> p1 !! k = p2 !! k) ->
  build_feature_values rt bundle p1 = build_feature_values rt bundle p2.
Proof.
  intros H. rewrite !build_feature_values_fold. apply build_fold_ext.
  intros c Hc. apply feature_value_ext. intros k Hk. apply (H c k Hc Hk).
Qed.

(** X5 at the scenario record with a device identifier and a timestamp
    added. *)
Lemma build_feature_values_ignores_other_keys_witness :
  build_feature_values demo_runtime demo_bundle
    (<["device_id" := PyStr "esp32-7"]> (<["ts" := PyInt 1730000000]> scenario_payload))
  = build_feature_values demo_runtime demo_bundle scenario_payload.
Proof.
  apply (build_feature_values_ignores_other_keys demo_runtime demo_bundle).
  intros c k Hc Hk.
  assert (k <> "device_id" /\ k <> "ts") as [Hd Ht].
  { cbn in Hc. destruct Hc as [<-|[<-|[<-|[]]]]; cbn in Hk;
      repeat (destruct Hk as [<-|Hk]; [split; discriminate|]); destruct Hk. }
  rewrite !lookup_insert_ne by congruence. reflexivity.
Defined.

Lemma features_as_payload_lookup (fv : list (string * float)) (k : string) :
  features_as_payload fv !! k = PyFloat <$> od_get k fv.
Proof.
  unfold features_as_payload. induction fv as [|[k0 v0] fv IH]; cbn.
  - apply lookup_empty.
  - rewrite lookup_insert. destruct (String.eqb_spec k k0) as [->|Hne].
    + rewrite decide_True by reflexivity. reflexivity.
    + rewrite decide_False by congruence. exact IH.
Qed.

(** X6.  Posting the [features] object of a reply back as a record builds
    the same mapping again: every schema name is then present under its own
    name, which is the first candidate, and holds a float already. *)
Theorem build_feature_values_round_trip (rt : Runtime) (bundle : Bundle)
    (payload : gmap string PyVal) :
  build_feature_values rt bundle
    (features_as_payload (build_feature_values rt bundle payload))
  = build_feature_values rt bundle payload.
Proof.
  rewrite (build_feature_values_fold rt _ bundle).
  rewrite (build_feature_values_fold rt payload bundle) at 2.
  apply build_fold_ext. intros c Hc.
  unfold feature_value at 1. unfold candidates. cbn [app first_present].
  rewrite features_as_payload_lookup.
  destruct (build_fold rt payload (FEATURE_COLS bundle) []) as (_ & _ & _ & Hval).
  rewrite build_feature_values_fold, (Hval c Hc). reflexivity.
Qed.

(** X7.  Two features with the same alias group read the same value from a
    record that holds neither of their own names: so for a device record,
    keyed by the aliases, the rolling and lagged columns of the training
    schema get the current reading of their base column. *)
Theorem feature_value_shared_aliases (rt : Runtime) (payload : gmap string PyVal)
    (c1 c2 : string) :
  alias_candidates (lower c1) = alias_candidates (lower c2) ->
  payload !! c1 = None -> payload !! lower c1 = None ->
  payload !! c2 = None -> payload !! lower c2 = None ->
  feature_value rt payload c1 = feature_value rt payload c2.
Proof.
  intros Hg H1 H1' H2 H2'. rewrite !feature_value_first_present.
  unfold candidates. cbn [app first_present].
  rewrite H1, H1', H2, H2', Hg. reflexivity.
Qed.

(** X7 at the particulate columns of the training schema. *)
Lemma feature_value_shared_aliases_witness :
  feature_value demo_runtime device_payload "pm2_5_roll_3"
  = feature_value demo_runtime device_payload "pm2_5_ugm3" /\
  feature_value demo_runtime device_payload "pm2_5_lag1"
  = feature_value demo_runtime device_payload "pm2_5_ugm3".
Proof.
  split.
  - apply (feature_value_shared_aliases demo_runtime device_payload
             "pm2_5_roll_3" "pm2_5_ugm3"); vm_compute; reflexivity.
  - apply (feature_value_shared_aliases demo_runtime device_payload
             "pm2_5_lag1" "pm2_5_ugm3"); vm_compute; reflexivity.
Defined.

(** ** [send_alert_email] and the routes *)



(** X9.  What [ingest_from_device] leaves behind matches its answer.  With
    the ok envelope, the first event is the write of exactly the features
    and predictions the envelope returns, under the identifier it returns,
    and every later event belongs to the alert.  With the error envelope
    nothing was stored and nothing was sent: the only possible event is the
    failed write. *)
Theorem ingest_events_match_reply (rt : Runtime) (bundle : Bundle) (svc : Services)
    (body : pyres (gmap string PyVal)) :
  (forall id preds fv,
     fst (ingest_from_device rt bundle svc body) = OkEnvelope id preds fv ->
     id = new_document_id svc /\
     exists alerts,
       snd (ingest_from_device rt bundle svc body)
       = Stored id {| doc_features := fv; doc_predictions := preds |} :: alerts /\
       forall ev, In ev alerts -> is_alert_event ev = true) /\
  (forall message,
     fst (ingest_from_device rt bundle svc body) = ErrorEnvelope message ->
     snd (ingest_from_device rt bundle svc body) = [] \/
     exists doc,
       snd (ingest_from_device rt bundle svc body)
       = [StoreFailed (new_document_id svc) doc]).
Proof.
  unfold ingest_from_device.
  destruct body as [payload|e]; cbn [fst snd].
  2:{ split; [discriminate|]. intros _ _. left. reflexivity. }
  destruct (bind _ _) as [out|e]; cbn [fst snd].
  2:{ split; [discriminate|]. intros _ _. left. reflexivity. }
  destruct (firestore_set _ _ _) as [u|e]; cbn [fst snd].
  - split; [|discriminate]. intros id preds fv H. inversion H; subst.
    split; [reflexivity|]. eexists. split; [reflexivity|].
    intros ev Hin. unfold alert_step in Hin.
    destruct (predictions out) as [|p ps]; [destruct Hin|].
    destruct Hin as [<-|Hin]; [reflexivity|].
    eapply send_alert_email_events, Hin.
  - split; [discriminate|]. intros _ _. right. eexists. reflexivity.
Qed.

(** X9 at the scenario request, the store working and the store down. *)
Lemma ingest_events_match_reply_witness :
  ("doc-1" = new_document_id demo_services /\
   exists alerts,
     snd (ingest_from_device demo_runtime demo_bundle demo_services (Ret scenario_payload))
     = Stored "doc-1" demo_document :: alerts /\
     forall ev, In ev alerts -> is_alert_event ev = true) /\
  (snd (ingest_from_device demo_runtime demo_bundle demo_services_store_down
          (Ret scenario_payload)) = [] \/
   exists doc,
     snd (ingest_from_device demo_runtime demo_bundle demo_services_store_down
            (Ret scenario_payload))
     = [StoreFailed (new_document_id demo_services_store_down) doc]).
Proof.
  split.
  - apply (proj1 (ingest_events_match_reply demo_runtime demo_bundle demo_services
                    (Ret scenario_payload)) "doc-1" demo_predictions demo_feature_values).
    reflexivity.
  - apply (proj2 (ingest_events_match_reply demo_runtime demo_bundle
                    demo_services_store_down (Ret scenario_payload))
             "503 The service is currently unavailable.").
    reflexivity.
Defined.

(** X10.  [predict_disease] and [ingest_from_device] compute the same
    answer from the same body: an ok envelope of the ingestion route carries
    the predictions and features [predict_disease] returns; when
    [predict_disease] fails the ingestion route fails with the same message
    before touching the store; and when [predict_disease] succeeds the
    ingestion route can only fail through the store write. *)
Theorem predict_disease_agrees_with_ingest (rt : Runtime) (bundle : Bundle)
    (svc : Services) (body : pyres (gmap string PyVal)) :
  (forall id preds fv,
     fst (ingest_from_device rt bundle svc body) = OkEnvelope id preds fv ->
     predict_disease rt bundle body = PredictOk preds fv) /\
  (forall message,
     predict_disease rt bundle body = PredictError message ->
     ingest_from_device rt bundle svc body = (ErrorEnvelope message, [])) /\
  (forall preds fv,
     predict_disease rt bundle body = PredictOk preds fv ->
     fst (ingest_from_device rt bundle svc body)
     = OkEnvelope (new_document_id svc) preds fv \/
     exists e,
       firestore_set svc (new_document_id svc)
         {| doc_features := fv; doc_predictions := preds |} = Raise e /\
       fst (ingest_from_device rt bundle svc body) = ErrorEnvelope (exn_msg e)).
Proof.
  unfold ingest_from_device, predict_disease.
  destruct body as [payload|e]; cbn [fst snd].
  2:{ split; [discriminate|]. split; [|discriminate].
      intros m H. inversion H. reflexivity. }
  destruct (bind _ _) as [out|e]; cbn [fst snd].
  2:{ split; [discriminate|]. split; [|discriminate].
      intros m H. inversion H. reflexivity. }
  split; [|split; [discriminate|]].
  - destruct (firestore_set _ _ _); cbn [fst]; [|discriminate].
    intros id preds fv H. inversion H. reflexivity.
  - intros preds fv H. inversion H; subst.
    destruct (firestore_set _ _ _) as [u|e] eqn:E; cbn [fst].
    + left. reflexivity.
    + right. exists e. split; reflexivity.
Qed.

(** X10 at the scenario request with the store down. *)
Lemma predict_disease_agrees_with_ingest_witness :
  fst (ingest_from_device demo_runtime demo_bundle demo_services_store_down
         (Ret scenario_payload))
  = OkEnvelope (new_document_id demo_services_store_down) demo_predictions demo_feature_values
  \/ exists e,
       firestore_set demo_services_store_down (new_document_id demo_services_store_down)
         {| doc_features := demo_feature_values; doc_predictions := demo_predictions |}
       = Raise e /\
       fst (ingest_from_device demo_runtime demo_bundle demo_services_store_down
              (Ret scenario_payload)) = ErrorEnvelope (exn_msg e).
Proof.
  apply (proj2 (proj2 (predict_disease_agrees_with_ingest demo_runtime demo_bundle
                         demo_services_store_down (Ret scenario_payload)))).
  reflexivity.
Defined.

Section JsonFacts.



End JsonFacts.



(** ** The probability field of an alert line *)






(** ** The explainer: names beyond the schema, and distinct names *)

Lemma nth_error_lookup {A : Type} (l : list A) (i : nat) : nth_error l i = l !! i.
Proof.
  revert i. induction l as [|a l IH]; intros [|i]; try reflexivity. apply IH.
Qed.

Lemma list_comp_Raise {A B : Type} (f : A -> pyres B) (cs : list A) (c : A) :
  In c cs -> (exists e, f c = Raise e) -> exists e, list_comp f cs = Raise e.
Proof.
  induction cs as [|c0 cs IH]; intros Hin Hc; [destruct Hin|].
  cbn. destruct (f c0) as [b|e] eqn:E0; cbn [bind]; [|eexists; reflexivity].
  destruct Hin as [->|Hin].
  - destruct Hc as [e He]. congruence.
  - destruct (IH Hin Hc) as [e He]. rewrite He. eexists. reflexivity.
Qed.

(** X13.  When SHAP returns one attribution array and [np.argsort], with
    whatever order the sorting kernel gives equal scores, ranks among the
    top two a column that the schema has no name for (an array wider than the
    schema), the explainer answers with the first two schema names: the
    [IndexError] of [FEATURE_COLS[i]] is caught with every other exception
    and no partial list of names is returned.  This is so in particular
    when a column beyond the schema has a score strictly above the scores of
    all but at most one column, where no kernel can rank it lower. *)
Theorem explainer_column_beyond_schema (rt : Runtime) (bundle : Bundle) (x : list float)
    (sv : Np.array2) (i : nat) :
  tree_shap (model bundle) 0 x = Ret (ShapMatrix sv) ->
  (length (FEATURE_COLS bundle) <= i)%nat ->
  (In i (slice_last 2 (Np.argsort (argsort_kernel rt) (Np.mean_axis0 (Np.abs sv)))) ->
   explain_and_generate_advice rt bundle x = firstn 2 (FEATURE_COLS bundle)) /\
  (forall s j,
     nth_error (Np.mean_axis0 (Np.abs sv)) i = Some s ->
     (forall k a, nth_error (Np.mean_axis0 (Np.abs sv)) k = Some a -> k <> i -> k <> j ->
        Np.lt a s = true) ->
     explain_and_generate_advice rt bundle x = firstn 2 (FEATURE_COLS bundle)).
Proof.
  intros Hsv Hi.
  assert (In i (slice_last 2 (Np.argsort (argsort_kernel rt) (Np.mean_axis0 (Np.abs sv)))) ->
          explain_and_generate_advice rt bundle x = firstn 2 (FEATURE_COLS bundle)) as Hfall.
  { intros Hin. unfold explain_and_generate_advice, explain_attempt.
    rewrite Hsv. cbn [bind].
    destruct (list_comp_Raise (list_item (FEATURE_COLS bundle))
                (rev (slice_last 2
                        (Np.argsort (argsort_kernel rt) (Np.mean_axis0 (Np.abs sv))))) i)
      as [e He].
    - apply in_rev. rewrite rev_involutive. exact Hin.
    - unfold list_item. rewrite (proj2 (nth_error_None _ _) Hi). eexists. reflexivity.
    - rewrite He. reflexivity. }
  split; [exact Hfall|].
  intros s j Hs Habove. apply Hfall.
  set (v := Np.mean_axis0 (Np.abs sv)) in *.
  assert (i < length v)%nat as Hiv by (apply nth_error_Some; congruence).
  destruct (Nat.le_gt_cases (length v) 1) as [Hshort|Hlong].
  { (* at most one column: the slice is the whole ranking *)
    unfold slice_last. rewrite argsort_length.
    replace (length v - 2)%nat with 0%nat by lia. cbn [skipn].
    eapply Permutation_in; [symmetry; apply argsort_perm|]. apply in_seq. lia. }
  destruct (argsort_top2 (argsort_kernel rt) v)
    as (r & i2 & i1 & a2 & a1 & Hr & H1 & H2 & Hne & Hmax & Hnext); [lia|].
  rewrite Hr. unfold slice_last. rewrite length_app. cbn [length].
  replace (length r + 2 - 2)%nat with (length r + 0)%nat by lia.
  rewrite skipn_app, skipn_all2 by lia.
  replace (length r + 0 - length r)%nat with 0%nat by lia. cbn [skipn app].
  destruct (decide (i = i1)) as [->|Hn1]; [right; left; reflexivity|].
  destruct (decide (i = i2)) as [->|Hn2]; [left; reflexivity|].
  exfalso.
  (* [i] below both: one of [i1], [i2] differs from [j] and is strictly below [s] *)
  pose proof (Hnext i s Hs Hn1) as Hle2.
  pose proof (Hmax i s Hs) as Hle1.
  destruct (decide (i2 = j)) as [Hj|Hj].
  - assert (i1 <> j) as Hj1 by congruence.
    pose proof (Habove i1 a1 H1 ltac:(congruence) Hj1) as Hlt.
    unfold Np.le in Hle1. rewrite Hlt in Hle1. discriminate.
  - pose proof (Habove i2 a2 H2 ltac:(congruence) Hj) as Hlt.
    unfold Np.le in Hle2. rewrite Hlt in Hle2. discriminate.
Qed.

(** X13 at an attribution of four columns for the schema of three names,
    with a stable kernel and with one that reverses equal values. *)
Lemma explainer_column_beyond_schema_witness :
  explain_and_generate_advice demo_runtime wide_shap_bundle demo_x
  = ["temperature_c"; "co2_ppm"] /\
  explain_and_generate_advice scenario_runtime wide_shap_bundle demo_x
  = ["temperature_c"; "co2_ppm"].
Proof.
  split.
  - apply (proj1 (explainer_column_beyond_schema demo_runtime wide_shap_bundle demo_x
                    {| Np.ncols := 4; Np.rows := [[0.1; 0.2; 0.3; 0.9]%float] |} 3
                    eq_refl ltac:(cbn; lia))).
    right. left. reflexivity.
  - apply (proj2 (explainer_column_beyond_schema scenario_runtime wide_shap_bundle demo_x
                    {| Np.ncols := 4; Np.rows := [[0.1; 0.2; 0.3; 0.9]%float] |} 3
                    eq_refl ltac:(cbn; lia))
             0.9%float 2%nat).
    + vm_compute. reflexivity.
    + intros k a Hk Hk3 Hk2.
      destruct k as [|[|[|[|k]]]]; [| |congruence|congruence|destruct k; discriminate Hk];
        vm_compute in Hk; inversion Hk; subst a; vm_compute; reflexivity.
Defined.

(** X14.  For a schema without repeated names the explainer never names a
    feature twice, on the ranking path and on the fallback path. *)
Theorem explainer_names_distinct (rt : Runtime) (bundle : Bundle) (x : list float) :
  List.NoDup (FEATURE_COLS bundle) ->
  List.NoDup (explain_and_generate_advice rt bundle x).
Proof.
  intros Hnd. apply NoDup_ListNoDup in Hnd. apply NoDup_ListNoDup.
  unfold explain_and_generate_advice, try_except.
  destruct (explain_attempt rt bundle x) as [names|e] eqn:E.
  - apply explain_attempt_Ret in E as [->|(sv & _ & E)]; [constructor|].
    assert (NoDup (rev (slice_last 2
                          (Np.argsort (argsort_kernel rt) (Np.mean_axis0 (Np.abs sv))))))
      as Hidx.
    { rewrite <- Permutation_rev. unfold slice_last.
      eapply sublist_NoDup; [|apply sublist_drop].
      rewrite (argsort_perm _ _). apply NoDup_seq. }
    apply NoDup_alt. intros a b f Ha Hb.
    destruct (Forall2_lookup_r _ _ _ _ _ E Ha) as (ia & Hia & Fa).
    destruct (Forall2_lookup_r _ _ _ _ _ E Hb) as (ib & Hib & Fb).
    unfold list_item in Fa, Fb.
    destruct (nth_error (FEATURE_COLS bundle) ia) as [fa|] eqn:Na; inversion Fa; subst fa.
    destruct (nth_error (FEATURE_COLS bundle) ib) as [fb|] eqn:Nb; inversion Fb; subst fb.
    rewrite nth_error_lookup in Na. rewrite nth_error_lookup in Nb.
    assert (ia = ib) as Hi by exact (NoDup_lookup _ ia ib f Hnd Na Nb).
    subst ib. exact (NoDup_lookup _ a b ia Hidx Hia Hib).
  - unfold slice_first. eapply sublist_NoDup; [exact Hnd|apply sublist_take].
Qed.

(** X14 at [demo_bundle]. *)
Lemma explainer_names_distinct_witness :
  List.NoDup (explain_and_generate_advice demo_runtime demo_bundle demo_x).
Proof.
  apply (explainer_names_distinct demo_runtime demo_bundle demo_x).
  cbn. repeat (constructor; [cbn; intuition discriminate|]). constructor.
Defined.

(** ** The lagged training columns *)

Lemma bfill_no_nan (s : list float) :
  Forall (fun a => PrimFloat.is_nan a = false) s -> Train.bfill s = s.
Proof.
  induction 1 as [|a s Ha _ IH]; cbn.
  - reflexivity.
  - rewrite Ha, IH. reflexivity.
Qed.

(** X15.  On a column without missing values and at least two rows the lag
    column of the training frame repeats the first value and then follows
    the column one row behind; the last value is not used.  On a column of a
    single row the lag is NaN, as there is no later row to fill from. *)
Theorem lag1_shifts_and_fills (v w : float) (s : list float) :
  Forall (fun a => PrimFloat.is_nan a = false) (v :: w :: s) ->
  Train.lag1 (v :: w :: s) = v :: removelast (v :: w :: s) /\
  length (Train.lag1 (v :: w :: s)) = length (v :: w :: s) /\
  Train.lag1 [v] = [nan].
Proof.
  intros Hs. unfold Train.lag1, Train.shift1.
  assert (Forall (fun a => PrimFloat.is_nan a = false) (removelast (v :: w :: s))) as Hr.
  { apply Forall_forall. intros a Ha. rewrite List.Forall_forall in Hs. apply Hs.
    apply list_elem_of_In. apply list_elem_of_In in Ha.
    change (removelast (v :: w :: s)) with (v :: removelast (w :: s)) in Ha.
    destruct Ha as [->|Ha]; [left; reflexivity|].
    right. clear -Ha. revert w Ha. induction s as [|u s IH]; intros w Ha.
    - destruct Ha.
    - change (removelast (w :: u :: s)) with (w :: removelast (u :: s)) in Ha.
      destruct Ha as [->|Ha]; [left; reflexivity|right; apply IH, Ha]. }
  cbn [Train.bfill]. rewrite (bfill_no_nan _ Hr).
  change (PrimFloat.is_nan nan) with true. cbv iota.
  change (removelast (v :: w :: s)) with (v :: removelast (w :: s)).
  split; [reflexivity|]. split; [|reflexivity].
  cbn [length]. f_equal. f_equal.
  clear. revert w. induction s as [|u s IH]; intros w; [reflexivity|].
  change (removelast (w :: u :: s)) with (w :: removelast (u :: s)).
  cbn [length]. f_equal. apply IH.
Qed.

(** X15 at a column of four readings. *)
Lemma lag1_shifts_and_fills_witness :
  Train.lag1 [12; 15; 11; 18]%float = [12; 12; 15; 11]%float /\
  length (Train.lag1 [12; 15; 11; 18]%float) = 4%nat /\
  Train.lag1 [12%float] = [nan].
Proof.
  apply (lag1_shifts_and_fills 12 15 [11; 18]%float).
  repeat constructor.
Defined.
